(** * Ender: port resolution and G-code translation of [Ender.py]

    A shallow embedding of the class [Ender] of [src/Ender.py]: the
    constructor's port search ([__find_serial_port], [__init__]), the
    coordinate-system selector ([use_workpiece_coordinate_system]) and the
    G-code translator ([print_from_gcode]).

    Python values are modelled as follows.
    - [str] is [string], one [ascii] per character: the model covers ASCII
      text (a G-code file, a device path).
    - [bytes] is [list byte].
    - [float] is the kernel's binary64 [float]; [float(s)] is [pyfloat], the
      correctly rounded value of a decimal literal, and [*] is [PrimFloat.mul].
    - [int] is [Z]; [None]-able values are [option].
    - An exception is the [Raise] outcome of the monad [M], which threads the
      session attributes and the chronological list of observable events
      (calls on the inherited builder, serial-port operations, log records).

    The collaborators the class calls into (gscrib's builder, pyserial, the
    logging module) are not modelled beyond the call itself: a call is an
    event, and it returns normally. *)

From Stdlib Require Import ZArith NArith List String Ascii Bool Lia.
From Stdlib.Strings Require Import Byte.
From Stdlib Require Import Floats.
Import ListNotations.

Local Open Scope string_scope.
Local Open Scope Z_scope.

(** ** Python's [str] builtins used by the source *)

Module PyStr.

(** [s.startswith(p)] *)
Definition startswith (s p : string) : bool := String.prefix p s.

(** [p in s] on strings: [p] occurs in [s] as a substring. *)
Fixpoint contains (p s : string) : bool :=
  String.prefix p s ||
  match s with
  | EmptyString => false
  | String _ s' => contains p s'
  end.

(** [s.split(sep)] for a one-character separator, which is what every call
    site passes: the pieces between the occurrences of [sep], in order. *)
Fixpoint split (sep : ascii) (s : string) : list string :=
  match s with
  | EmptyString => [EmptyString]
  | String c s' =>
      if Ascii.eqb c sep then EmptyString :: split sep s'
      else match split sep s' with
           | [] => [String c EmptyString]
           | w :: ws => String c w :: ws
           end
  end.

(** The characters [Py_ISSPACE] accepts: space, and TAB to CR. *)
Definition is_space (c : ascii) : bool :=
  let n := N_of_ascii c in
  (n =? 32)%N || ((9 <=? n)%N && (n <=? 13)%N).

Definition is_digit (c : ascii) : bool :=
  let n := N_of_ascii c in (48 <=? n)%N && (n <=? 57)%N.

Definition digit_value (c : ascii) : Z := Z.of_N (N_of_ascii c) - 48.

(** ASCII lower-casing, [Py_TOLOWER]. *)
Definition to_lower (c : ascii) : ascii :=
  let n := N_of_ascii c in
  if (65 <=? n)%N && (n <=? 90)%N then ascii_of_N (n + 32) else c.

End PyStr.

(** ** [float(s)] on a string *)

Module PyFloat.
Import PyStr.

Definition chars := list ascii.

Fixpoint lstrip (s : chars) : chars :=
  match s with
  | c :: s' => if is_space c then lstrip s' else s
  | [] => []
  end.

Definition strip (s : chars) : chars := rev (lstrip (rev (lstrip s))).

(** Underscores: each must stand between two digits, and is then dropped.
    [prev] is the character before the current one ([None] at the start).
    [None] is the [ValueError]. *)
Fixpoint drop_underscores (prev : option ascii) (s : chars) : option chars :=
  match s with
  | [] =>
      match prev with
      | Some "_"%char => None
      | _ => Some []
      end
  | c :: s' =>
      if Ascii.eqb c "_" then
        match prev with
        | Some p => if is_digit p then drop_underscores (Some c) s' else None
        | None => None
        end
      else
        match prev with
        | Some "_"%char =>
            if is_digit c
            then option_map (cons c) (drop_underscores (Some c) s')
            else None
        | _ => option_map (cons c) (drop_underscores (Some c) s')
        end
  end.

(** The longest prefix of digits, and what follows it. *)
Fixpoint span_digits (s : chars) : chars * chars :=
  match s with
  | c :: s' =>
      if is_digit c then let '(ds, r) := span_digits s' in (c :: ds, r)
      else ([], s)
  | [] => ([], [])
  end.

Definition decimal (ds : chars) : Z :=
  fold_left (fun acc c => 10 * acc + digit_value c) ds 0.

(** An optional sign: [true] for ["-"]. *)
Definition take_sign (s : chars) : bool * chars :=
  match s with
  | "-"%char :: s' => (true, s')
  | "+"%char :: s' => (false, s')
  | _ => (false, s)
  end.

(** The exponent part: consumed only when at least one digit follows the
    [e] and its optional sign. *)
Definition take_exponent (s : chars) : Z * chars :=
  match s with
  | c :: s' =>
      if Ascii.eqb (to_lower c) "e" then
        let '(neg, s1) := take_sign s' in
        match span_digits s1 with
        | ([], _) => (0, s)
        | (ds, r) => ((if neg then - decimal ds else decimal ds), r)
        end
      else (0, s)
  | [] => (0, [])
  end.

(** A parsed decimal literal: sign, digits [m] and decimal exponent [e]
    stand for [m * 10^e]. *)
Record literal := { lit_neg : bool; lit_digits : Z; lit_exp : Z }.

(** The decimal grammar of the string-to-double conversion:
    [[sign] (digits [. [digits]] | . digits) [(e|E) [sign] digits]].
    Returns the literal and the unconsumed rest; [None] when no digit was
    found (no conversion). *)
Definition parse_decimal (s : chars) : option (literal * chars) :=
  let '(neg, s0) := take_sign s in
  let '(ip, s1) := span_digits s0 in
  let '(fp, s2) :=
    match s1 with
    | "."%char :: s1' => span_digits s1'
    | _ => ([], s1)
    end in
  match (ip ++ fp)%list with
  | [] => None
  | ds =>
      let '(ex, s3) := take_exponent s2 in
      Some ({| lit_neg := neg; lit_digits := decimal ds;
               lit_exp := ex - Z.of_nat (List.length fp) |}, s3)
  end.

(** [s] starts with [t], ignoring the case of [s] ([t] is lower case);
    the rest of [s] on success. *)
Fixpoint match_nocase (t s : chars) : option chars :=
  match t, s with
  | [], _ => Some s
  | a :: t', c :: s' =>
      if Ascii.eqb (to_lower c) a then match_nocase t' s' else None
  | _ :: _, [] => None
  end.

Definition inf_chars : chars := list_ascii_of_string "inf".
Definition inity_chars : chars := list_ascii_of_string "inity".
Definition nan_chars : chars := list_ascii_of_string "nan".

(** [inf], [infinity] and [nan] with an optional sign, tried when the
    decimal grammar converted nothing. *)
Definition parse_inf_or_nan (s : chars) : option (float * chars) :=
  let '(neg, s0) := take_sign s in
  match match_nocase inf_chars s0 with
  | Some s1 =>
      let r := match match_nocase inity_chars s1 with
               | Some s2 => s2
               | None => s1
               end in
      Some ((if neg then neg_infinity else infinity), r)
  | None =>
      match match_nocase nan_chars s0 with
      | Some s1 => Some (nan, s1)
      | None => None
      end
  end.

(** The binary64 value nearest to [m * 10^e] (ties to even), for [m > 0]:
    an integer is rounded directly, a quotient [m / 10^(-e)] through the
    location of its remainder. *)
Definition round_decimal (neg : bool) (m : positive) (e : Z) : spec_float :=
  match e with
  | Zneg k =>
      let '(q, e', l) :=
        SFdiv_core_binary prec emax (Zpos m) 0 (Z.pow 10 (Zpos k)) 0 in
      binary_round_aux prec emax neg q e' l
  | _ => binary_round prec emax neg (Pos.mul m (Z.to_pos (Z.pow 10 e))) 0
  end.

Definition float_of_literal (l : literal) : float :=
  match lit_digits l with
  | Zpos m => SF2Prim (round_decimal (lit_neg l) m (lit_exp l))
  | _ => if lit_neg l then neg_zero else zero
  end.

(** [float(s)]: [None] is the [ValueError].  This is [float] on ASCII
    text: on a [str] Python also strips whitespace beyond ASCII and reads
    decimal digits of other scripts, which this function refuses. *)
Definition pyfloat (s : string) : option float :=
  let body := strip (list_ascii_of_string s) in
  let cleaned :=
    if existsb (Ascii.eqb "_") body then drop_underscores None body
    else Some body in
  match cleaned with
  | None => None
  | Some t =>
      match parse_decimal t with
      | Some (l, []) => Some (float_of_literal l)
      | Some (_, _ :: _) => None
      | None =>
          match parse_inf_or_nan t with
          | Some (f, []) => Some f
          | _ => None
          end
      end
  end.

End PyFloat.

(** ** [bytes.decode()]: strict UTF-8 *)

Module Utf8.

(** A continuation byte, [0x80..0xBF]. *)
Definition cont (b : N) : bool := ((128 <=? b) && (b <=? 191))%N.

Definition between (lo b hi : N) : bool := ((lo <=? b) && (b <=? hi))%N.

(** The values the second byte may take after the lead byte [b0] of a
    three- or four-byte sequence: overlong forms, surrogates and code
    points above [0x10FFFF] are refused. *)
Definition second_ok (b0 b1 : N) : bool :=
  if (b0 =? 224)%N then between 160 b1 191
  else if (b0 =? 237)%N then between 128 b1 159
  else if (b0 =? 240)%N then between 144 b1 191
  else if (b0 =? 244)%N then between 128 b1 143
  else cont b1.

(** The code points of a well-formed UTF-8 byte sequence; [None] is the
    [UnicodeDecodeError]. *)
Fixpoint decode_N (bs : list N) : option (list N) :=
  match bs with
  | [] => Some []
  | b0 :: r0 =>
      if (b0 <? 128)%N then option_map (cons b0) (decode_N r0)
      else if between 194 b0 223 then
        match r0 with
        | b1 :: r1 =>
            if cont b1
            then option_map (cons ((b0 - 192) * 64 + (b1 - 128))%N)
                   (decode_N r1)
            else None
        | _ => None
        end
      else if between 224 b0 239 then
        match r0 with
        | b1 :: b2 :: r2 =>
            if second_ok b0 b1 && cont b2
            then option_map
                   (cons ((b0 - 224) * 4096 + (b1 - 128) * 64 + (b2 - 128))%N)
                   (decode_N r2)
            else None
        | _ => None
        end
      else if between 240 b0 244 then
        match r0 with
        | b1 :: b2 :: b3 :: r3 =>
            if second_ok b0 b1 && cont b2 && cont b3
            then option_map
                   (cons ((b0 - 240) * 262144 + (b1 - 128) * 4096
                          + (b2 - 128) * 64 + (b3 - 128))%N)
                   (decode_N r3)
            else None
        | _ => None
        end
      else None
  end.

(** Decoded text, as its code points. *)
Definition text := list N.

Definition decode (bs : list byte) : option text :=
  decode_N (map Byte.to_N bs).

Definition of_string (s : string) : text :=
  map N_of_ascii (list_ascii_of_string s).

Fixpoint is_prefix (p s : text) : bool :=
  match p, s with
  | [], _ => true
  | a :: p', b :: s' => (a =? b)%N && is_prefix p' s'
  | _ :: _, [] => false
  end.

(** [p in s] on decoded text. *)
Fixpoint contains (p s : text) : bool :=
  is_prefix p s ||
  match s with
  | [] => false
  | _ :: s' => contains p s'
  end.

End Utf8.

(** ** Exceptions, events and the session monad *)

Module Py.

Inductive exn :=
| ValueError
| IndexError
| AttributeError
| UnboundLocalError
| UnicodeDecodeError
| FileNotFoundError
| RuntimeError (msg : string).

(** How an expression or a call ends. *)
Inductive outcome (A : Type) :=
| Return (a : A)
| Raise (e : exn).
Arguments Return {A} a.
Arguments Raise {A} e.

Definition obind {A B} (m : outcome A) (k : A -> outcome B) : outcome B :=
  match m with
  | Return a => k a
  | Raise e => Raise e
  end.

(** [l[i]] *)
Definition getitem {A} (l : list A) (i : nat) : outcome A :=
  match nth_error l i with
  | Some a => Return a
  | None => Raise IndexError
  end.

(** [float(s)] *)
Definition to_float (s : string) : outcome float :=
  match PyFloat.pyfloat s with
  | Some f => Return f
  | None => Raise ValueError
  end.

(** A loop over [xs] that updates its local variables [v] and stops at the
    first exception. *)
Fixpoint ofold {A V} (body : V -> A -> outcome V) (v : V) (xs : list A)
  : outcome V :=
  match xs with
  | [] => Return v
  | a :: xs' => obind (body v a) (fun v' => ofold body v' xs')
  end.

Definition is_none {A} (o : option A) : bool :=
  match o with
  | None => true
  | Some _ => false
  end.

(** [self.rapid] and [self.move]. *)
Inductive move_kind := Rapid | Linear.

(** A feedrate is the [int] override or a parsed [float]. *)
Inductive pynum :=
| PyInt (n : Z)
| PyFloat (f : float).

Inductive level := Debug | Info | Warning.

(** The parts of an f-string: literal text (interpolated strings included)
    and the interpolated values that are not strings, left unrendered. *)
Inductive fmt :=
| Lit (s : string)
| Bytes (b : list byte)
| Coords (x y z : option float).

(** What a method does that is visible outside the object, in order. *)
Inductive event :=
| Log (logger : string) (lvl : level) (msg : list fmt)
(* pyserial and [time] *)
| SerialOpen (dev : string) (baudrate : Z) (timeout : float)
| SerialWrite (dev : string) (data : list byte)
| Sleep (seconds : float)
| SerialReadAll (dev : string)
| SerialClose (dev : string)
(* the inherited [gscrib.GCodeBuilder] *)
| BuilderInit (direct_write port : string) (baudrate : Z)
| SetBounds (name : string) (lo hi : list Z)
| SetLengthUnits (u : string)
| SetTimeUnits (u : string)
| AbsoluteMode
| Write (line : string)
| SetAxis (x y : Z)
| Move (k : move_kind) (x y z : option float) (F : option pynum)
| GetWriter
| Query (what : string)
| GetParameter (name : string)
| Teardown
| Flush.

(** The attributes the class itself assigns; [None] is "not set yet". *)
Record session := {
  serial_port : option (option string);
  ode_content : option (list string)
}.

Definition fresh : session :=
  {| serial_port := None; ode_content := None |}.

(** The result of running a method: how it ended, the attributes after
    it, and the events it produced. *)
Record result (A : Type) := {
  outcome_of : outcome A;
  final : session;
  emitted : list event
}.
Arguments outcome_of {A} r.
Arguments final {A} r.
Arguments emitted {A} r.
Arguments Build_result {A}.

Definition M (A : Type) := session -> result A.

Definition ret {A} (a : A) : M A :=
  fun s => {| outcome_of := Return a; final := s; emitted := [] |}.

Definition raise {A} (e : exn) : M A :=
  fun s => {| outcome_of := Raise e; final := s; emitted := [] |}.

Definition bind {A B} (m : M A) (k : A -> M B) : M B :=
  fun s =>
    let r := m s in
    match outcome_of r with
    | Return a =>
        let r' := k a (final r) in
        {| outcome_of := outcome_of r'; final := final r';
           emitted := emitted r ++ emitted r' |}
    | Raise e =>
        {| outcome_of := Raise e; final := final r; emitted := emitted r |}
    end.

Definition lift {A} (o : outcome A) : M A :=
  match o with
  | Return a => ret a
  | Raise e => raise e
  end.

Definition emit (e : event) : M unit :=
  fun s => {| outcome_of := Return tt; final := s; emitted := [e] |}.

Definition get : M session :=
  fun s => {| outcome_of := Return s; final := s; emitted := [] |}.

Definition put (s : session) : M unit :=
  fun _ => {| outcome_of := Return tt; final := s; emitted := [] |}.

(** [for a in xs: body(a)] *)
Fixpoint for_each {A} (xs : list A) (body : A -> M unit) : M unit :=
  match xs with
  | [] => ret tt
  | a :: xs' => bind (body a) (fun _ => for_each xs' body)
  end.

End Py.

Declare Scope py_scope.
Delimit Scope py_scope with py.
Notation "x <- m ;; k" := (Py.bind m (fun x => k))
  (at level 61, m at next level, right associativity) : py_scope.
Notation "m ;; k" := (Py.bind m (fun _ => k))
  (at level 61, right associativity) : py_scope.
Notation "x <~ m ;; k" := (Py.obind m (fun x => k))
  (at level 61, m at next level, right associativity) : py_scope.

(** ** The class [Ender] *)

Module Ender.
Import PyStr Py.
Local Open Scope py_scope.

(** An entry of [comports()]. *)
Record port_info := {
  device : string;
  manufacturer : option string
}.

(** The machine the program runs on: what the module reads from it. *)
Record host := {
  (** [sys.platform] *)
  platform : string;
  (** [comports()], in enumeration order *)
  comports : list port_info;
  (** [ser.isOpen()] for a [serial.Serial] built on the device *)
  is_open : string -> bool;
  (** what [ser.read_all()] gives after the request and the wait *)
  response : string -> list byte;
  (** the text of the file at a path, [None] when there is none *)
  files : string -> option string;
  (** [writer.get_parameter(name)] after a position query *)
  parameter : string -> option float
}.

Definition LF : ascii := "010"%char.
Definition CR : ascii := "013"%char.

(** [b"M115\r\n"] *)
Definition M115 : list byte :=
  (list_byte_of_string "M115" ++ [x0d; x0a])%list.

(** The text a file opened with [open(path, "r")] gives: every line
    ending ([\r\n], [\r], [\n]) read as [\n]. *)
Fixpoint universal_newlines (s : string) : string :=
  match s with
  | EmptyString => EmptyString
  | String c r =>
      if Ascii.eqb c CR then
        match r with
        | String c' r' =>
            if Ascii.eqb c' LF then String LF (universal_newlines r')
            else String LF (universal_newlines r)
        | EmptyString => String LF EmptyString
        end
      else String c (universal_newlines r)
  end.

(** The lines of a text, each with its [\n] when it has one. *)
Fixpoint keepends (s : string) : list string :=
  match s with
  | EmptyString => []
  | String c r =>
      if Ascii.eqb c LF then String c EmptyString :: keepends r
      else match keepends r with
           | [] => [String c EmptyString]
           | l :: ls => String c l :: ls
           end
  end.

(** [f.readlines()] on a file with the given content. *)
Definition readlines (content : string) : list string :=
  keepends (universal_newlines content).

(** The local variables [x], [y], [z] and [feedrate] of a move. *)
Record vars := {
  var_x : option float;
  var_y : option float;
  var_z : option float;
  var_feedrate : option pynum
}.

Definition set_x (v : vars) (f : float) : vars :=
  {| var_x := Some f; var_y := var_y v; var_z := var_z v;
     var_feedrate := var_feedrate v |}.
Definition set_y (v : vars) (f : float) : vars :=
  {| var_x := var_x v; var_y := Some f; var_z := var_z v;
     var_feedrate := var_feedrate v |}.
Definition set_z (v : vars) (f : float) : vars :=
  {| var_x := var_x v; var_y := var_y v; var_z := Some f;
     var_feedrate := var_feedrate v |}.
Definition set_feedrate (v : vars) (n : pynum) : vars :=
  {| var_x := var_x v; var_y := var_y v; var_z := var_z v;
     var_feedrate := Some n |}.

(** [x = None; y = None; z = None; feedrate = override] *)
Definition init_vars (override : option Z) : vars :=
  {| var_x := None; var_y := None; var_z := None;
     var_feedrate := option_map PyInt override |}.

(** [float(coord.split(letter)[1])] *)
Definition field_value (letter : ascii) (coord : string) : outcome float :=
  t <~ getitem (split letter coord) 1 ;; to_float t.

(** [if coord.startswith(letter): v = float(coord.split(letter)[1])*scale] *)
Definition axis_field (letter : ascii) (set : vars -> float -> vars)
    (scale : float) (v : vars) (coord : string) : outcome vars :=
  if startswith coord (String letter EmptyString)
  then f <~ field_value letter coord ;; Return (set v (f * scale)%float)
  else Return v.

(** The body of the loop over [splits[1:]] in the [G0] case. *)
Definition rapid_coord (scale : float) (v : vars) (coord : string)
  : outcome vars :=
  v <~ axis_field "X" set_x scale v coord ;;
  v <~ axis_field "Y" set_y scale v coord ;;
  v <~ axis_field "Z" set_z scale v coord ;;
  if startswith coord "F" && is_none (var_feedrate v)
  then f <~ field_value "F" coord ;; Return (set_feedrate v (PyFloat f))
  else Return v.

(** The body of the loop over [splits[1:]] in the [G1] case. *)
Definition move_coord (move_feedrate : option Z) (scale : float)
    (v : vars) (coord : string) : outcome vars :=
  v <~ axis_field "X" set_x scale v coord ;;
  v <~ axis_field "Y" set_y scale v coord ;;
  v <~ axis_field "Z" set_z scale v coord ;;
  if startswith coord "F" && is_none move_feedrate
  then f <~ field_value "F" coord ;; Return (set_feedrate v (PyFloat f))
  else Return v.

Definition log (logger : string) (lvl : level) (msg : list fmt) : M unit :=
  emit (Log logger lvl msg).

(** [self.rapid(x=x, y=y, z=z)] or [self.rapid(x=x, y=y, z=z, F=feedrate)],
    and the same for [self.move]: [F] is passed only when [feedrate] is
    not [None]. *)
Definition send_move (k : move_kind) (v : vars) : M unit :=
  match var_feedrate v with
  | None => emit (Move k (var_x v) (var_y v) (var_z v) None)
  | Some f => emit (Move k (var_x v) (var_y v) (var_z v) (Some f))
  end.

(** The body of [for line in self.ode_content]. *)
Definition process_line (rapid_feedrate move_feedrate : option Z)
    (scale : float) (line : string) : M unit :=
  log "GCode Parsing" Debug [Lit "processing line: "; Lit line] ;;
  code <- lift (getitem (split ";" line) 0) ;;
  let splits := split " " code in
  kind <- lift (getitem splits 0) ;;
  if String.eqb kind "G0" then
    log "GCode Parsing" Debug [Lit "found G0 move"] ;;
    v <- lift (ofold (rapid_coord scale) (init_vars rapid_feedrate)
                 (skipn 1 splits)) ;;
    log "GCode Parsing" Debug
      [Lit "coordinates: "; Coords (var_x v) (var_y v) (var_z v)] ;;
    send_move Rapid v
  else if String.eqb kind "G1" then
    log "GCode Parsing" Debug [Lit "found G1 move"] ;;
    v <- lift (ofold (move_coord move_feedrate scale)
                 (init_vars move_feedrate) (skipn 1 splits)) ;;
    log "GCode Parsing" Debug
      [Lit "coordinates: "; Coords (var_x v) (var_y v) (var_z v)] ;;
    send_move Linear v
  else ret tt.

Section OnHost.
Variable h : host.

(** [with open(f_path, "r") as f: ... f.readlines()], for a path that
    names a readable text file or no file at all; the other ways [open]
    and the read can fail (a directory, a permission, bytes that are not
    text) are outside the model. *)
Definition open_readlines (f_path : string) : M (list string) :=
  match files h f_path with
  | Some content => ret (readlines content)
  | None => raise FileNotFoundError
  end.

Definition print_from_gcode (f_path : string)
    (rapid_feedrate move_feedrate : option Z) (scale : float) : M unit :=
  lines <- open_readlines f_path ;;
  s <- get ;;
  put {| serial_port := serial_port s; ode_content := Some lines |} ;;
  log "GCode Parsing" Debug [Lit "read contents: "; Lit f_path] ;;
  s <- get ;;
  content <- match ode_content s with
             | Some c => ret c
             | None => raise AttributeError
             end ;;
  for_each content (process_line rapid_feedrate move_feedrate scale).

(** The loop of [__find_serial_port] over the remaining ports; falling
    off its end returns [None]. *)
Fixpoint find_in (ports : list port_info) : M (option string) :=
  match ports with
  | [] => ret None
  | port :: rest =>
      if String.eqb (platform h) "linux"
         && negb (contains "ttyUSB" (device port))
      then find_in rest
      else if negb (is_none (manufacturer port)) then find_in rest
      else
        log "ender" Debug [Lit "trying port: "; Lit (device port)] ;;
        emit (SerialOpen (device port) 115200 0.5%float) ;;
        if negb (is_open h (device port)) then find_in rest
        else
          emit (SerialWrite (device port) M115) ;;
          emit (Sleep 0.5%float) ;;
          emit (SerialReadAll (device port)) ;;
          let reply := response h (device port) in
          log "ender" Debug [Lit "port response: "; Bytes reply] ;;
          emit (SerialClose (device port)) ;;
          match Utf8.decode reply with
          | None => raise UnicodeDecodeError
          | Some text =>
              if Utf8.contains (Utf8.of_string "Marlin") text then
                log "ender" Info [Lit "found port: "; Lit (device port)] ;;
                ret (Some (device port))
              else find_in rest
          end
  end.

Definition __find_serial_port : M (option string) :=
  log "ender" Debug [Lit "start ender serial port search"] ;;
  find_in (comports h).

Definition __init__ : M unit :=
  port <- __find_serial_port ;;
  s <- get ;;
  put {| serial_port := Some port; ode_content := ode_content s |} ;;
  match port with
  | None => raise (RuntimeError "ERROR: could not find ender-3 serial port")
  | Some dev =>
      emit (BuilderInit "serial" dev 115200) ;;
      emit (SetBounds "bed-temperature" [0] [100]) ;;
      emit (SetBounds "feed-rate" [50] [7000]) ;;
      emit (SetBounds "axes" [0; 0; 0] [235; 235; 90]) ;;
      emit (SetLengthUnits "mm") ;;
      emit (SetTimeUnits "s") ;;
      emit AbsoluteMode ;;
      emit (Write "M203 X5000 Y5000 Z10.0") ;;
      emit (Write "M204 P1000 T1000")
  end.

Definition get_position : M (list (option float)) :=
  emit GetWriter ;;
  emit (Query "position") ;;
  emit (GetParameter "X") ;;
  emit (GetParameter "Y") ;;
  emit (GetParameter "Z") ;;
  ret [parameter h "X"; parameter h "Y"; parameter h "Z"].

End OnHost.

(** The [match coord_num] of [use_workpiece_coordinate_system]: the value
    bound to [gcode_cmd], [None] when no case matches. *)
Definition gcode_cmd (coord_num : Z) : option string :=
  match coord_num with
  | 1 => Some "G54"
  | 2 => Some "G55"
  | 3 => Some "G56"
  | 4 => Some "G57"
  | 5 => Some "G58"
  | 6 => Some "G59"
  | 7 => Some "G59.1"
  | 8 => Some "G59.2"
  | 9 => Some "G59.3"
  | _ => None
  end.

Definition use_workpiece_coordinate_system (coord_num : Z)
    (zero_coords : bool) : M unit :=
  if negb ((1 <=? coord_num) && (coord_num <=? 9)) then
    log "ender" Warning [Lit "available coordinate systems: 1-9"]
  else
    cmd <- match gcode_cmd coord_num with
           | Some c => ret c
           | None => raise UnboundLocalError
           end ;;
    emit (Write cmd) ;;
    if zero_coords then emit (SetAxis 0 0) else ret tt.

Definition use_machine_coordinate_system : M unit :=
  emit (Write "G53").

(** [print(disconnect)] *)
Definition print (disconnect : bool) : M unit :=
  if disconnect then emit Teardown else emit Flush.

(** The calls of [self.rapid] and [self.move] among the events. *)
Definition moves (es : list event) : list event :=
  filter (fun e => match e with Move _ _ _ _ _ => true | _ => false end) es.

(** The serial-port operations among the events. *)
Definition serial_ops (es : list event) : list event :=
  filter (fun e => match e with
                   | SerialOpen _ _ _ | SerialWrite _ _ | SerialReadAll _
                   | SerialClose _ => true
                   | _ => false
                   end) es.

(** The calls on the inherited builder among the events. *)
Definition builder_calls (es : list event) : list event :=
  filter (fun e => match e with
                   | Log _ _ _ | SerialOpen _ _ _ | SerialWrite _ _
                   | Sleep _ | SerialReadAll _ | SerialClose _ => false
                   | _ => true
                   end) es.

Definition warnings (es : list event) : list event :=
  filter (fun e => match e with Log _ Warning _ => true | _ => false end) es.

End Ender.

(** ** Vocabulary for the statements

    Names for the expressions of the source that the properties speak
    about, and the tables the specification gives in words. *)

Module Spec.
Import PyStr Py Ender.

(** [line.split(";")[0].split(" ")]: the tokens of the code part. *)
Definition tokens (line : string) : list string :=
  split " " (hd EmptyString (split ";" line)).

(** The kind a line is dispatched on: [splits[0]] is ["G0"] or ["G1"]. *)
Definition kind_of (line : string) : option move_kind :=
  match tokens line with
  | k :: _ =>
      if String.eqb k "G0" then Some Rapid
      else if String.eqb k "G1" then Some Linear
      else None
  | [] => None
  end.

(** [splits[1:]] *)
Definition fields_of (line : string) : list string := skipn 1 (tokens line).

(** The override of the policy for a kind of move. *)
Definition override_of (k : move_kind) (rapid_feedrate move_feedrate : option Z)
  : option Z :=
  match k with
  | Rapid => rapid_feedrate
  | Linear => move_feedrate
  end.

(** The loop over the fields of a line of kind [k]. *)
Definition fold_fields (k : move_kind) (rapid_feedrate move_feedrate : option Z)
    (scale : float) (toks : list string) : outcome vars :=
  match k with
  | Rapid => ofold (rapid_coord scale) (init_vars rapid_feedrate) toks
  | Linear =>
      ofold (move_coord move_feedrate scale) (init_vars move_feedrate) toks
  end.

Definition letter_str (letter : ascii) : string := String letter EmptyString.

(** The number a field token carries, when its text is one. *)
Definition parsed (letter : ascii) (tok : string) : option float :=
  match field_value letter tok with
  | Return f => Some f
  | Raise _ => None
  end.

(** A token of the given letter on which the source raises: the text it
    passes to [float], [coord.split(letter)[1]], is not a number.  This is
    the reading of the code, not of the specification (see
    [SpecFields.malformed_field]). *)
Definition bad (letter : ascii) (tok : string) : bool :=
  startswith tok (letter_str letter) && is_none (parsed letter tok).

Definition bad_axis (tok : string) : bool :=
  bad "X" tok || bad "Y" tok || bad "Z" tok.

(** The value a variable holds after a token: the scaled number of the
    token when it is a field of the letter, the old value otherwise. *)
Definition axis_after (scale : float) (letter : ascii) (tok : string)
    (old : option float) : option float :=
  if startswith tok (letter_str letter)
  then option_map (fun f => (f * scale)%float) (parsed letter tok)
  else old.

(** The feedrate after a token: the number of an F field, unscaled, when
    the guard of the source lets it through. *)
Definition feed_after (guard : bool) (tok : string) (old : option pynum)
  : option pynum :=
  if startswith tok (letter_str "F") && guard
  then option_map PyFloat (parsed "F" tok)
  else old.

(** The variables after a token that raises nothing. *)
Definition vars_after (guard : bool) (scale : float) (tok : string)
    (v : vars) : vars :=
  {| var_x := axis_after scale "X" tok (var_x v);
     var_y := axis_after scale "Y" tok (var_y v);
     var_z := axis_after scale "Z" tok (var_z v);
     var_feedrate := feed_after guard tok (var_feedrate v) |}.

(** The last, and the first, token that starts with [letter]. *)
Fixpoint last_token (letter : ascii) (toks : list string) : option string :=
  match toks with
  | [] => None
  | t :: r =>
      match last_token letter r with
      | Some u => Some u
      | None => if startswith t (letter_str letter) then Some t else None
      end
  end.

Fixpoint first_token (letter : ascii) (toks : list string) : option string :=
  match toks with
  | [] => None
  | t :: r => if startswith t (letter_str letter) then Some t
              else first_token letter r
  end.

(** The value of an axis variable after the loop: the scaled number of
    the last field of the letter, [old] when the line has none. *)
Definition last_axis (scale : float) (letter : ascii) (toks : list string)
    (old : option float) : option float :=
  match last_token letter toks with
  | Some t => option_map (fun f => (f * scale)%float) (parsed letter t)
  | None => old
  end.

(** The feedrate of the last, and of the first, F field: unscaled. *)
Definition last_feed (toks : list string) (old : option pynum)
  : option pynum :=
  match last_token "F" toks with
  | Some t => option_map PyFloat (parsed "F" t)
  | None => old
  end.

Definition first_feed (toks : list string) : option pynum :=
  match first_token "F" toks with
  | Some t => option_map PyFloat (parsed "F" t)
  | None => None
  end.

(** The first F field is malformed. *)
Definition first_feed_bad (toks : list string) : bool :=
  match first_token "F" toks with
  | Some t => bad "F" t
  | None => false
  end.

(** The value of the last field of a letter, times [scale]. *)
Definition scaled_last (scale : float) (letter : ascii) (toks : list string)
  : option float :=
  match last_token letter toks with
  | Some t => option_map (fun f => (f * scale)%float) (parsed letter t)
  | None => None
  end.

(** The fields on which the translator reaches [float] with a text that is
    not a number: a malformed X, Y or Z field; a malformed F field of a
    linear move without override; a malformed first F field of a rapid
    move without override. *)
Definition malformed_fields (k : move_kind)
    (rapid_feedrate move_feedrate : option Z) (toks : list string) : bool :=
  match k with
  | Linear =>
      existsb (fun t => bad_axis t || (is_none move_feedrate && bad "F" t))
        toks
  | Rapid =>
      existsb bad_axis toks
      || (is_none rapid_feedrate && first_feed_bad toks)
  end.

Definition malformed_line (rapid_feedrate move_feedrate : option Z)
    (line : string) : bool :=
  match kind_of line with
  | Some k => malformed_fields k rapid_feedrate move_feedrate (fields_of line)
  | None => false
  end.

(** The feedrate a move of kind [k] is sent with: the override when the
    policy has one, else the number of the F field that counts. *)
Definition feedrate_of (k : move_kind)
    (rapid_feedrate move_feedrate : option Z) (toks : list string)
  : option pynum :=
  match override_of k rapid_feedrate move_feedrate with
  | Some n => Some (PyInt n)
  | None =>
      match k with
      | Rapid => first_feed toks
      | Linear => last_feed toks None
      end
  end.

(** The variables at the end of the loop over well-formed fields. *)
Definition vars_of (k : move_kind) (rapid_feedrate move_feedrate : option Z)
    (scale : float) (toks : list string) : vars :=
  {| var_x := scaled_last scale "X" toks;
     var_y := scaled_last scale "Y" toks;
     var_z := scaled_last scale "Z" toks;
     var_feedrate := feedrate_of k rapid_feedrate move_feedrate toks |}.

(** The selector codes as the specification lists them. *)
Definition selector_table : list (Z * string) :=
  [(1, "G54"); (2, "G55"); (3, "G56"); (4, "G57"); (5, "G58"); (6, "G59");
   (7, "G59.1"); (8, "G59.2"); (9, "G59.3")].

Fixpoint lookup (n : Z) (table : list (Z * string)) : option string :=
  match table with
  | [] => None
  | (k, v) :: rest => if Z.eqb n k then Some v else lookup n rest
  end.

(** *** Port resolution *)

(** The candidate is passed over before any port is opened. *)
Definition skipped (h : host) (p : port_info) : bool :=
  (String.eqb (platform h) "linux" && negb (contains "ttyUSB" (device p)))
  || negb (is_none (manufacturer p)).

(** The candidate is probed: the request is written and a response read. *)
Definition probed (h : host) (p : port_info) : bool :=
  negb (skipped h p) && is_open h (device p).

(** The response of a candidate as text, and whether the text contains the
    firmware signature. *)
Definition reply_text (h : host) (p : port_info) : option Utf8.text :=
  Utf8.decode (response h (device p)).

Definition has_signature (t : Utf8.text) : bool :=
  Utf8.contains (Utf8.of_string "Marlin") t.

(** A probed candidate whose response is text with the signature. *)
Definition is_match (h : host) (p : port_info) : bool :=
  probed h p &&
  match reply_text h p with
  | Some t => has_signature t
  | None => false
  end.

(** A candidate that is not probed, or whose response is text without the
    signature. *)
Definition no_match (h : host) (p : port_info) : bool :=
  negb (probed h p) ||
  match reply_text h p with
  | Some t => negb (has_signature t)
  | None => false
  end.

(** A probed candidate whose response is not text. *)
Definition undecodable (h : host) (p : port_info) : bool :=
  probed h p && is_none (reply_text h p).

(** A probed candidate whose response does not contain the signature,
    as text or not. *)
Definition lacks_signature (h : host) (p : port_info) : bool :=
  negb (is_match h p).

(** The events of a probe, from opening the port to closing it. *)
Definition probe_events (h : host) (p : port_info) : list event :=
  [Log "ender" Debug [Lit "trying port: "; Lit (device p)];
   SerialOpen (device p) 115200 0.5%float;
   SerialWrite (device p) M115;
   Sleep 0.5%float;
   SerialReadAll (device p);
   Log "ender" Debug [Lit "port response: "; Bytes (response h (device p))];
   SerialClose (device p)].

(** The events of the loop on a candidate it moves on from. *)
Definition visit_events (h : host) (p : port_info) : list event :=
  if skipped h p then []
  else if negb (is_open h (device p)) then
    [Log "ender" Debug [Lit "trying port: "; Lit (device p)];
     SerialOpen (device p) 115200 0.5%float]
  else probe_events h p.

Definition start_search : event :=
  Log "ender" Debug [Lit "start ender serial port search"].

Definition found_port (p : port_info) : event :=
  Log "ender" Info [Lit "found port: "; Lit (device p)].

Definition port_not_found : exn :=
  RuntimeError "ERROR: could not find ender-3 serial port".

(** A result with more events in front. *)
Definition after {A} (es : list event) (r : result A) : result A :=
  {| outcome_of := outcome_of r; final := final r;
     emitted := es ++ emitted r |}.

(** The log records of a line that is dispatched. *)
Definition processing (line : string) : event :=
  Log "GCode Parsing" Debug [Lit "processing line: "; Lit line].

Definition found_move (k : move_kind) : event :=
  Log "GCode Parsing" Debug
    [Lit match k with
         | Rapid => "found G0 move"
         | Linear => "found G1 move"
         end].

Definition coordinates (v : vars) : event :=
  Log "GCode Parsing" Debug
    [Lit "coordinates: "; Coords (var_x v) (var_y v) (var_z v)].

Definition move_of (k : move_kind) (v : vars) : event :=
  Move k (var_x v) (var_y v) (var_z v) (var_feedrate v).

(** The events of a line that raises nothing. *)
Definition line_events (rapid_feedrate move_feedrate : option Z)
    (scale : float) (line : string) : list event :=
  match kind_of line with
  | Some k =>
      let v := vars_of k rapid_feedrate move_feedrate scale (fields_of line) in
      [processing line; found_move k; coordinates v; move_of k v]
  | None => [processing line]
  end.

(** The events of a line that raises in its fields. *)
Definition aborted_line_events (line : string) : list event :=
  match kind_of line with
  | Some k => [processing line; found_move k]
  | None => [processing line]
  end.

Definition read_contents (f_path : string) : event :=
  Log "GCode Parsing" Debug [Lit "read contents: "; Lit f_path].

(** The session after [self.ode_content = f.readlines()]. *)
Definition with_content (s : session) (lines : list string) : session :=
  {| serial_port := serial_port s; ode_content := Some lines |}.


(** A token that is not an F field. *)
Definition not_feed (tok : string) : bool :=
  negb (startswith tok (letter_str "F")).

(** The y of a single move compared with a float; floats are told apart
    by comparing them. *)
Definition single_y_is (f : float) (es : list event) : bool :=
  match es with
  | [Move _ _ (Some y) _ _] => PrimFloat.eqb y f
  | _ => false
  end.


(** The example files and hosts of the statements. *)
Definition host_with_file (path content : string) : host :=
  {| platform := "linux"; comports := [];
     is_open := fun _ => false; response := fun _ => [];
     files := fun p => if String.eqb p path then Some content else None;
     parameter := fun _ => None |}.

Definition host_with_ports (ports : list port_info)
    (reply : string -> list byte) : host :=
  {| platform := "linux"; comports := ports;
     is_open := fun _ => true; response := reply;
     files := fun _ => None; parameter := fun _ => None |}.

Definition usb (n : string) : port_info :=
  {| device := "/dev/ttyUSB" ++ n; manufacturer := None |}.

(** Responses of the example hosts: bytes that are not UTF-8, a firmware
    banner, and an unrelated line. *)
Definition garbage : list byte := [xff].
Definition banner : list byte := list_byte_of_string "FIRMWARE_NAME:Marlin 2.0".
Definition busy : list byte := list_byte_of_string "echo:busy".

(** A port that does not answer as text, followed by the printer. *)
Definition host_garbage_then_printer : host :=
  host_with_ports [usb "0"; usb "1"]
    (fun dev => if String.eqb dev "/dev/ttyUSB0" then garbage else banner).

(** A single port, which does not answer as text. *)
Definition host_garbage_only : host :=
  host_with_ports [usb "0"] (fun _ => garbage).

(** A built-in port, an adapter with a manufacturer, an unrelated device,
    the printer, and one more port. *)
Definition host_with_printer : host :=
  host_with_ports
    [{| device := "/dev/ttyS0"; manufacturer := None |};
     {| device := "/dev/ttyUSB0"; manufacturer := Some "FTDI" |};
     usb "1"; usb "2"; usb "3"]
    (fun dev => if String.eqb dev "/dev/ttyUSB2" then banner
                else if String.eqb dev "/dev/ttyUSB3" then garbage
                else busy).

(** The same machine without the printer. *)
Definition host_without_printer : host :=
  host_with_ports
    [{| device := "/dev/ttyS0"; manufacturer := None |};
     {| device := "/dev/ttyUSB0"; manufacturer := Some "FTDI" |};
     usb "1"]
    (fun _ => busy).

(** The serial operations of a probe. *)
Definition probe_ops (p : port_info) : list event :=
  [SerialOpen (device p) 115200 0.5%float;
   SerialWrite (device p) M115;
   SerialReadAll (device p);
   SerialClose (device p)].

Definition coordinate_warning : event :=
  Log "ender" Warning [Lit "available coordinate systems: 1-9"].

(** The events of selecting a workpiece coordinate system by its code. *)
Definition select_events (code : string) (zero_coords : bool) : list event :=
  Write code :: (if zero_coords then [SetAxis 0 0] else []).

(** A text from its lines, joined with [\n]. *)
Definition unlines (ls : list string) : string :=
  String.concat (String LF EmptyString) ls.

Definition nl (l : string) : string := l ++ String LF EmptyString.

(** A program whose second line has a malformed X field. *)
Definition broken_program : string := unlines ["G0 X1"; "G1 Xabc"; "G1 X2"].

(** A program whose first line is a marker alone, followed by its line
    ending. *)
Definition bare_marker_program : string := unlines ["G1"; "G0 X1"].

(** The moves a run of the translator on a file with the given text
    sends to the builder. *)
Definition moves_of_run (content : string)
    (rapid_feedrate move_feedrate : option Z) (scale : float) : list event :=
  moves (emitted (print_from_gcode (host_with_file "a.gcode" content)
                    "a.gcode" rapid_feedrate move_feedrate scale fresh)).

End Spec.

(** ** More vocabulary: whole runs, whole searches *)

Module SpecMore.
Import PyStr Py Ender Spec.

(** A token the loops over the fields look at: it starts with X, Y, Z
    or F. *)
Definition is_field (tok : string) : bool :=
  startswith tok (letter_str "X") || startswith tok (letter_str "Y")
  || startswith tok (letter_str "Z") || startswith tok (letter_str "F").

(** The move of a line that raises nothing: one for a line of a recognized
    kind, none for any other line. *)
Definition line_moves (rapid_feedrate move_feedrate : option Z)
    (scale : float) (line : string) : list event :=
  match kind_of line with
  | Some k =>
      [move_of k (vars_of k rapid_feedrate move_feedrate scale
                    (fields_of line))]
  | None => []
  end.

(** The character occurs in the string. *)
Fixpoint has_char (c : ascii) (s : string) : bool :=
  match s with
  | EmptyString => false
  | String a r => Ascii.eqb a c || has_char c r
  end.

(** The serial operations of the loop on one candidate: none when it is
    passed over, the opening alone when the port reports not open, a whole
    probe otherwise. *)
Definition candidate_ops (h : host) (p : port_info) : list event :=
  if skipped h p then []
  else if is_open h (device p) then probe_ops p
  else [SerialOpen (device p) 115200 0.5%float].

(** The candidates the loop gets to: those up to and including the first
    one that is a match or does not answer as text. *)
Fixpoint visited (h : host) (ports : list port_info) : list port_info :=
  match ports with
  | [] => []
  | p :: rest => if no_match h p then p :: visited h rest else [p]
  end.

(** The calls the constructor makes on the builder once a port is found. *)
Definition setup_calls (dev : string) : list event :=
  [BuilderInit "serial" dev 115200;
   SetBounds "bed-temperature" [0] [100];
   SetBounds "feed-rate" [50] [7000];
   SetBounds "axes" [0; 0; 0] [235; 235; 90];
   SetLengthUnits "mm"; SetTimeUnits "s"; AbsoluteMode;
   Write "M203 X5000 Y5000 Z10.0"; Write "M204 P1000 T1000"].

(** A program with lines of other kinds, a comment and an empty line
    among its moves. *)
Definition mixed_program : string :=
  unlines ["; first layer"; "G28"; "G0 X1 Y2"; ""; "M104 S200";
           "G1 X3 F600 ; wall"; "G1 Z0.25"].

End SpecMore.

(** ** Vocabulary of the specification for malformed fields *)

Module SpecFields.
Import PyStr Py Ender Spec SpecMore.

(** The text of a token after its first character: what the
    specification calls the remainder after the field letter. *)
Definition remainder (tok : string) : string :=
  match tok with
  | String _ r => r
  | EmptyString => EmptyString
  end.

(** The text is ASCII: the range of [str] the model reads as Python does
    ([float] also takes whitespace and digits beyond ASCII). *)
Definition is_ascii (s : string) : bool :=
  forallb (fun c => (N_of_ascii c <? 128)%N) (list_ascii_of_string s).

(** A field of the letter with malformed numeric text: the remainder
    after the letter is not a number.  Tokens in which the letter occurs
    again are left out: there the source reads only the text up to the
    second occurrence. *)
Definition malformed_field (letter : ascii) (tok : string) : bool :=
  startswith tok (letter_str letter)
  && negb (has_char letter (remainder tok))
  && is_none (PyFloat.pyfloat (remainder tok)).

Definition malformed_axis_field (tok : string) : bool :=
  malformed_field "X" tok || malformed_field "Y" tok
  || malformed_field "Z" tok.

(** The fields of a line of kind [k] hold malformed text in a field that
    is read: an X, Y or Z field; an F field when the policy has no
    override for the kind, on a rapid line the first F field. *)
Definition reads_malformed_field (k : move_kind)
    (rapid_feedrate move_feedrate : option Z) (toks : list string) : bool :=
  existsb malformed_axis_field toks
  || (is_none (override_of k rapid_feedrate move_feedrate)
      && match k with
         | Linear => existsb (malformed_field "F") toks
         | Rapid =>
             match first_token "F" toks with
             | Some t => malformed_field "F" t
             | None => false
             end
         end).

(** A recognized motion line with malformed text in a field that is
    read. *)
Definition malformed_motion_line (rapid_feedrate move_feedrate : option Z)
    (line : string) : bool :=
  match kind_of line with
  | Some k =>
      reads_malformed_field k rapid_feedrate move_feedrate (fields_of line)
  | None => false
  end.

End SpecFields.

(** * Properties *)

(** ** Strings *)

Module PyStrFacts.
Import PyStr.

(** [split] always gives at least one piece. *)
Lemma split_cons (sep : ascii) (s : string) :
  exists w ws, split sep s = w :: ws.
Proof.
  induction s as [|c s IH]; simpl.
  - eauto.
  - destruct (Ascii.eqb c sep); [eauto|].
    destruct (split sep s); eauto.
Qed.

Lemma startswith_letter (c letter : ascii) (r : string) :
  startswith (String c r) (String letter EmptyString) = Ascii.eqb c letter.
Proof.
  unfold startswith; simpl.
  destruct (Ascii.ascii_dec letter c) as [->|n].
  - rewrite Ascii.eqb_refl. now destruct r.
  - symmetry. apply Ascii.eqb_neq. congruence.
Qed.

(** A token that starts with the letter splits at it into an empty first
    piece and at least one more: index 1 is in range. *)
Lemma split_at_first_letter (letter : ascii) (tok : string) :
  startswith tok (String letter EmptyString) = true ->
  exists t ts, split letter tok = EmptyString :: t :: ts.
Proof.
  destruct tok as [|c r]; [discriminate|].
  rewrite startswith_letter. intros E. simpl. rewrite E.
  destruct (split_cons letter r) as (w & ws & ->). eauto.
Qed.

(** At most one of two different letters starts a token. *)
Lemma startswith_exclusive (a b : ascii) (tok : string) :
  a <> b ->
  startswith tok (String a EmptyString) = true ->
  startswith tok (String b EmptyString) = false.
Proof.
  destruct tok as [|c r]; [discriminate|].
  rewrite !startswith_letter. intros N E.
  apply Ascii.eqb_eq in E. subst c. now apply Ascii.eqb_neq.
Qed.

End PyStrFacts.

(** ** The translator, line by line *)

Module Translator.
Import PyStr Py Ender Spec PyStrFacts.
Local Open Scope py_scope.

Lemma tokens_cons (line : string) : exists k fs, tokens line = k :: fs.
Proof. apply split_cons. Qed.

(** [send_move] passes the feedrate the loop ended with. *)
Lemma send_move_run (k : move_kind) (v : vars) (s : session) :
  send_move k v s =
  {| outcome_of := Return tt; final := s; emitted := [move_of k v] |}.
Proof. unfold send_move, move_of. now destruct (var_feedrate v). Qed.

(** What the body of the loop over the lines does on one line. *)
Lemma process_line_run (rf mf : option Z) (scale : float) (line : string)
    (s : session) :
  process_line rf mf scale line s =
  match kind_of line with
  | Some k =>
      match fold_fields k rf mf scale (fields_of line) with
      | Return v =>
          {| outcome_of := Return tt; final := s;
             emitted := [processing line; found_move k; coordinates v;
                         move_of k v] |}
      | Raise e =>
          {| outcome_of := Raise e; final := s;
             emitted := [processing line; found_move k] |}
      end
  | None =>
      {| outcome_of := Return tt; final := s;
         emitted := [processing line] |}
  end.
Proof.
  unfold process_line, kind_of, fields_of, tokens.
  destruct (split_cons ";" line) as (code & rest & ->).
  destruct (split_cons " " code) as (kind & fs & E).
  unfold bind at 1. simpl emitted. simpl outcome_of. simpl final.
  unfold bind at 1. simpl hd. rewrite E. simpl.
  unfold bind at 1. simpl.
  destruct (String.eqb kind "G0").
  - unfold fold_fields, bind, log, emit; simpl.
    destruct (ofold (rapid_coord scale) (init_vars rf) fs) as [v|e]; simpl.
    + now rewrite send_move_run.
    + reflexivity.
  - destruct (String.eqb kind "G1").
    + unfold fold_fields, bind, log, emit; simpl.
      destruct (ofold (move_coord mf scale) (init_vars mf) fs) as [v|e];
        simpl.
      * now rewrite send_move_run.
      * reflexivity.
    + reflexivity.
Qed.

(** *** One field *)

(** Under the guard [startswith], index 1 of the split is in range, so
    reading a field fails only in [float]. *)
Lemma field_value_guarded (letter : ascii) (tok : string) :
  startswith tok (letter_str letter) = true ->
  field_value letter tok =
  match parsed letter tok with
  | Some f => Return f
  | None => Raise ValueError
  end.
Proof.
  intros E. unfold parsed, field_value.
  destruct (split_at_first_letter letter tok E) as (t & ts & ->).
  simpl. unfold to_float. now destruct (PyFloat.pyfloat t).
Qed.

Lemma axis_field_run letter set scale v tok :
  axis_field letter set scale v tok =
  if startswith tok (letter_str letter) then
    match parsed letter tok with
    | Some f => Return (set v (f * scale)%float)
    | None => Raise ValueError
    end
  else Return v.
Proof.
  unfold axis_field. fold (letter_str letter).
  destruct (startswith tok (letter_str letter)) eqn:E; [|reflexivity].
  rewrite (field_value_guarded _ _ E).
  now destruct (parsed letter tok).
Qed.

Lemma feed_field_run (guard : bool) v tok :
  (if startswith tok "F" && guard
   then f <~ field_value "F" tok ;; Return (set_feedrate v (PyFloat f))
   else Return v) =
  if startswith tok (letter_str "F") && guard then
    match parsed "F" tok with
    | Some f => Return (set_feedrate v (PyFloat f))
    | None => Raise ValueError
    end
  else Return v.
Proof.
  change "F"%string with (letter_str "F").
  destruct (startswith tok (letter_str "F")) eqn:E; [|reflexivity].
  destruct guard; [|reflexivity]. simpl.
  rewrite (field_value_guarded _ _ E).
  now destruct (parsed "F" tok).
Qed.

Ltac step_field l :=
  match goal with
  | |- context [startswith ?t (String l EmptyString)] =>
      let E := fresh "E" in
      destruct (startswith t (String l EmptyString)) eqn:E;
      [ rewrite ?(field_value_guarded l t E); destruct (parsed l t) | ];
      simpl
  end.

(** The body of the [G1] loop on one token. *)
Lemma move_coord_run mf scale v tok :
  move_coord mf scale v tok =
  if bad_axis tok || (is_none mf && bad "F" tok) then Raise ValueError
  else Return (vars_after (is_none mf) scale tok v).
Proof.
  unfold move_coord, axis_field, vars_after, bad_axis, bad, axis_after,
    feed_after, letter_str.
  change "F"%string with (String "F" EmptyString).
  step_field "X"%char; try step_field "Y"%char; try step_field "Z"%char;
    try step_field "F"%char; destruct v, mf; reflexivity.
Qed.

(** The body of the [G0] loop on one token: the guard of the F field is
    the feedrate variable itself. *)
Lemma rapid_coord_run scale v tok :
  rapid_coord scale v tok =
  if bad_axis tok || (is_none (var_feedrate v) && bad "F" tok)
  then Raise ValueError
  else Return (vars_after (is_none (var_feedrate v)) scale tok v).
Proof.
  unfold rapid_coord, axis_field, vars_after, bad_axis, bad, axis_after,
    feed_after, letter_str.
  change "F"%string with (String "F" EmptyString).
  step_field "X"%char; try step_field "Y"%char; try step_field "Z"%char;
    try step_field "F"%char; destruct v as [x y z [fr|]]; reflexivity.
Qed.

(** *** The loop over the fields *)

Lemma last_axis_cons scale letter t r old :
  last_axis scale letter (t :: r) old =
  last_axis scale letter r (axis_after scale letter t old).
Proof.
  unfold last_axis, axis_after; simpl.
  destruct (last_token letter r); [reflexivity|].
  now destruct (startswith t (letter_str letter)).
Qed.

Lemma last_feed_cons t r old :
  last_feed (t :: r) old = last_feed r (feed_after true t old).
Proof.
  unfold last_feed, feed_after; simpl.
  destruct (last_token "F" r); [reflexivity|].
  now destruct (startswith t (letter_str "F")).
Qed.

Lemma feed_after_closed t old : feed_after false t old = old.
Proof. unfold feed_after. now rewrite andb_false_r. Qed.

(** The [G1] loop: it raises exactly on a malformed field it reads, and
    otherwise every variable holds the number of the last field of its
    letter. *)
Lemma linear_fold_run mf scale toks v :
  ofold (move_coord mf scale) v toks =
  if existsb (fun t => bad_axis t || (is_none mf && bad "F" t)) toks
  then Raise ValueError
  else Return {| var_x := last_axis scale "X" toks (var_x v);
                 var_y := last_axis scale "Y" toks (var_y v);
                 var_z := last_axis scale "Z" toks (var_z v);
                 var_feedrate :=
                   if is_none mf then last_feed toks (var_feedrate v)
                   else var_feedrate v |}.
Proof.
  revert v. induction toks as [|t r IH]; intros v.
  - destruct v, mf; reflexivity.
  - simpl ofold. rewrite move_coord_run. simpl existsb.
    destruct (bad_axis t || (is_none mf && bad "F" t)); [reflexivity|].
    simpl. rewrite IH. destruct (existsb _ r); [reflexivity|].
    rewrite !last_axis_cons. f_equal. unfold vars_after; simpl.
    destruct mf; simpl.
    + now rewrite feed_after_closed.
    + now rewrite last_feed_cons.
Qed.

(** The [G0] loop: an F field is read only while the feedrate variable is
    [None], so the first F field is the one that counts. *)
Lemma rapid_fold_run scale toks v :
  ofold (rapid_coord scale) v toks =
  if existsb bad_axis toks
     || (is_none (var_feedrate v) && first_feed_bad toks)
  then Raise ValueError
  else Return {| var_x := last_axis scale "X" toks (var_x v);
                 var_y := last_axis scale "Y" toks (var_y v);
                 var_z := last_axis scale "Z" toks (var_z v);
                 var_feedrate :=
                   match var_feedrate v with
                   | Some n => Some n
                   | None => first_feed toks
                   end |}.
Proof.
  revert v. induction toks as [|t r IH]; intros v.
  - destruct v as [x y z [n|]]; reflexivity.
  - simpl ofold. rewrite rapid_coord_run. simpl existsb.
    rewrite !last_axis_cons.
    unfold first_feed_bad, first_feed; simpl first_token.
    destruct (bad_axis t); [reflexivity|]. simpl.
    destruct v as [x y z [n|]]; simpl.
    + rewrite IH. simpl. rewrite !orb_false_r.
      destruct (existsb bad_axis r); [reflexivity|].
      now rewrite feed_after_closed.
    + unfold bad, vars_after, feed_after; simpl.
      destruct (startswith t (letter_str "F")) eqn:E; simpl;
        unfold bad; rewrite ?E; simpl.
      * destruct (parsed "F" t) as [f|]; simpl.
        -- rewrite IH. simpl. now rewrite !orb_false_r.
        -- now rewrite orb_true_r.
      * rewrite IH. reflexivity.
Qed.

Lemma fold_fields_run k rf mf scale toks :
  fold_fields k rf mf scale toks =
  if malformed_fields k rf mf toks then Raise ValueError
  else Return (vars_of k rf mf scale toks).
Proof.
  destruct k; simpl.
  - rewrite rapid_fold_run. destruct rf; reflexivity.
  - rewrite linear_fold_run. destruct mf; reflexivity.
Qed.

(** *** A line, and the loop over the lines *)

(** A line that is not malformed is processed to its end and leaves the
    session as it was. *)
Lemma process_line_ok rf mf scale line s :
  malformed_line rf mf line = false ->
  process_line rf mf scale line s =
  {| outcome_of := Return tt; final := s;
     emitted := line_events rf mf scale line |}.
Proof.
  unfold malformed_line, line_events. rewrite process_line_run.
  destruct (kind_of line) as [k|]; [|reflexivity].
  rewrite fold_fields_run. now intros ->.
Qed.

(** A malformed line raises [ValueError] before any move is sent. *)
Lemma process_line_malformed rf mf scale line s :
  malformed_line rf mf line = true ->
  process_line rf mf scale line s =
  {| outcome_of := Raise ValueError; final := s;
     emitted := aborted_line_events line |}.
Proof.
  unfold malformed_line, aborted_line_events. rewrite process_line_run.
  destruct (kind_of line) as [k|]; [|discriminate].
  rewrite fold_fields_run. now intros ->.
Qed.

Lemma for_each_ok rf mf scale lines s :
  Forall (fun l => malformed_line rf mf l = false) lines ->
  for_each lines (process_line rf mf scale) s =
  {| outcome_of := Return tt; final := s;
     emitted := flat_map (line_events rf mf scale) lines |}.
Proof.
  induction 1 as [|l ls Hl _ IH]; [reflexivity|].
  simpl for_each. unfold bind. rewrite (process_line_ok _ _ _ _ _ Hl).
  simpl. now rewrite IH.
Qed.

(** The loop stops at the first malformed line. *)
Lemma for_each_abort rf mf scale pre l post s :
  Forall (fun l => malformed_line rf mf l = false) pre ->
  malformed_line rf mf l = true ->
  for_each (pre ++ l :: post) (process_line rf mf scale) s =
  {| outcome_of := Raise ValueError; final := s;
     emitted := flat_map (line_events rf mf scale) pre
                ++ aborted_line_events l |}.
Proof.
  intros Hpre Hl. induction Hpre as [|a pre Ha _ IH].
  - simpl. unfold bind. now rewrite (process_line_malformed _ _ _ _ _ Hl).
  - simpl app. simpl for_each. unfold bind at 1.
    rewrite (process_line_ok _ _ _ _ _ Ha). simpl. rewrite IH. simpl.
    now rewrite app_assoc.
Qed.

(** A run on an existing file: the lines are stored, then processed. *)
Lemma print_from_gcode_run h f_path rf mf scale s content :
  files h f_path = Some content ->
  print_from_gcode h f_path rf mf scale s =
  after [read_contents f_path]
    (for_each (readlines content) (process_line rf mf scale)
       (with_content s (readlines content))).
Proof.
  intros E. unfold print_from_gcode, open_readlines. rewrite E.
  reflexivity.
Qed.

Lemma print_from_gcode_missing h f_path rf mf scale s :
  files h f_path = None ->
  print_from_gcode h f_path rf mf scale s =
  {| outcome_of := Raise FileNotFoundError; final := s; emitted := [] |}.
Proof.
  intros E. unfold print_from_gcode, open_readlines. now rewrite E.
Qed.

Lemma moves_app a b : moves (a ++ b) = (moves a ++ moves b)%list.
Proof. apply filter_app. Qed.

Lemma moves_aborted line : moves (aborted_line_events line) = [].
Proof.
  unfold aborted_line_events. now destruct (kind_of line) as [[]|].
Qed.

Lemma moves_line_events rf mf scale line :
  moves (line_events rf mf scale line) =
  match kind_of line with
  | Some k => [move_of k (vars_of k rf mf scale (fields_of line))]
  | None => []
  end.
Proof.
  unfold line_events. now destruct (kind_of line) as [[]|].
Qed.

(** *** The session after a run *)

Lemma process_line_final rf mf scale line s :
  final (process_line rf mf scale line s) = s.
Proof.
  rewrite process_line_run.
  destruct (kind_of line) as [k|]; [|reflexivity].
  now destruct (fold_fields k rf mf scale (fields_of line)).
Qed.

(** The loop over the lines never assigns an attribute, however it ends. *)
Lemma for_each_final rf mf scale lines s :
  final (for_each lines (process_line rf mf scale) s) = s.
Proof.
  revert s. induction lines as [|l ls IH]; intros s; [reflexivity|].
  simpl for_each. unfold bind.
  pose proof (process_line_final rf mf scale l s) as F.
  destruct (process_line rf mf scale l s) as [[[]|e] s' es]; simpl in *.
  - now rewrite IH.
  - exact F.
Qed.

(** The lines of a text, put end to end, are the text. *)
Lemma concat_keepends (t : string) :
  String.concat EmptyString (keepends t) = t.
Proof.
  induction t as [|c r IH]; [reflexivity|].
  simpl keepends. destruct (Ascii.eqb c LF).
  - destruct (keepends r) as [|l ls] eqn:E.
    + simpl in *. now subst r.
    + change (String.concat EmptyString (String c EmptyString :: l :: ls))
        with (String c (String.concat EmptyString (l :: ls))).
      now rewrite IH.
  - destruct (keepends r) as [|l ls] eqn:E.
    + simpl in *. now subst r.
    + rewrite <- IH. destruct ls; reflexivity.
Qed.

(** *** Splitting a list at the first element that satisfies a test *)

Lemma first_split {A} (P : A -> bool) (l : list A) :
  existsb P l = true ->
  exists pre x post,
    l = (pre ++ x :: post)%list /\
    Forall (fun a => P a = false) pre /\ P x = true.
Proof.
  induction l as [|a l IH]; [discriminate|]. simpl.
  destruct (P a) eqn:E.
  - intros _. exists [], a, l. repeat split; auto.
  - intros H. destruct (IH H) as (pre & x & post & -> & Hpre & Hx).
    exists (a :: pre), x, post. repeat split; auto.
Qed.

(** *** Lines under an override: the F fields play no part *)

Lemma malformed_fields_override k rf mf n toks :
  override_of k rf mf = Some n ->
  malformed_fields k rf mf toks = existsb bad_axis toks.
Proof.
  destruct k; simpl; intros ->; simpl.
  - now rewrite orb_false_r.
  - induction toks as [|t r IH]; [reflexivity|].
    simpl. now rewrite IH, orb_false_r.
Qed.

Lemma axis_token_not_feed (letter : ascii) (tok : string) :
  letter <> "F"%char ->
  startswith tok (letter_str letter) = true -> not_feed tok = true.
Proof.
  intros N E. unfold not_feed, letter_str in *.
  now rewrite (startswith_exclusive letter "F" tok N E).
Qed.

Lemma feed_token_not_axis (letter : ascii) (tok : string) :
  letter <> "F"%char ->
  not_feed tok = false -> startswith tok (letter_str letter) = false.
Proof.
  intros N E. unfold not_feed, letter_str in *. apply negb_false_iff in E.
  apply (startswith_exclusive "F" letter tok); [congruence | exact E].
Qed.

Lemma bad_axis_not_feed (tok : string) :
  not_feed tok = false -> bad_axis tok = false.
Proof.
  intros E. unfold bad_axis, bad.
  rewrite !(feed_token_not_axis _ tok) by (discriminate || exact E).
  reflexivity.
Qed.

Lemma existsb_bad_axis_filter (toks : list string) :
  existsb bad_axis (filter not_feed toks) = existsb bad_axis toks.
Proof.
  induction toks as [|t r IH]; [reflexivity|]. simpl.
  destruct (not_feed t) eqn:E; simpl; rewrite IH; [reflexivity|].
  now rewrite (bad_axis_not_feed _ E).
Qed.

Lemma last_token_filter (letter : ascii) (toks : list string) :
  letter <> "F"%char ->
  last_token letter (filter not_feed toks) = last_token letter toks.
Proof.
  intros N. induction toks as [|t r IH]; [reflexivity|]. simpl.
  destruct (not_feed t) eqn:E; simpl; rewrite IH; [reflexivity|].
  rewrite (feed_token_not_axis _ _ N E). now destruct (last_token letter r).
Qed.

Lemma scaled_last_filter scale (letter : ascii) (toks : list string) :
  letter <> "F"%char ->
  scaled_last scale letter (filter not_feed toks) =
  scaled_last scale letter toks.
Proof. intros N. unfold scaled_last. now rewrite last_token_filter. Qed.

(** Under an override the loop gives the same variables with the F fields
    of the line taken out. *)
Lemma fold_fields_without_feed k rf mf n scale toks :
  override_of k rf mf = Some n ->
  fold_fields k rf mf scale (filter not_feed toks) =
  fold_fields k rf mf scale toks.
Proof.
  intros O. rewrite !fold_fields_run.
  rewrite !(malformed_fields_override _ _ _ _ _ O), existsb_bad_axis_filter.
  destruct (existsb bad_axis toks); [reflexivity|].
  unfold vars_of, feedrate_of. rewrite O.
  now rewrite !scaled_last_filter by discriminate.
Qed.

End Translator.

(** ** Port resolution *)

Module Resolver.
Import PyStr Py Ender Spec.
Local Open Scope py_scope.

Section OnHost.
Variable h : host.

Ltac case_signature :=
  match goal with
  | |- context [Utf8.contains ?a ?t] => destruct (Utf8.contains a t)
  end.

Ltac run_loop :=
  cbn [find_in]; unfold bind, log, emit, ret, raise, after;
  cbn [outcome_of final emitted app].

(** The loop moves on from a candidate that is no match. *)
Lemma find_in_visit p rest s :
  no_match h p = true ->
  find_in h (p :: rest) s = after (visit_events h p) (find_in h rest s).
Proof.
  unfold no_match, visit_events, probed, skipped, reply_text,
    has_signature, probe_events.
  run_loop.
  destruct (String.eqb (platform h) "linux"
            && negb (contains "ttyUSB" (device p))); cbn.
  { intros _. now destruct (find_in h rest s). }
  destruct (manufacturer p); cbn.
  { intros _. now destruct (find_in h rest s). }
  destruct (is_open h (device p)); cbn; [|reflexivity].
  destruct (Utf8.decode (response h (device p))) as [t|]; [|discriminate].
  case_signature; [discriminate|].
  reflexivity.
Qed.

(** The loop returns at a match: the port is closed, the find is
    logged, and the rest of the list is not looked at. *)
Lemma find_in_match p rest s :
  is_match h p = true ->
  find_in h (p :: rest) s =
  {| outcome_of := Return (Some (device p)); final := s;
     emitted := probe_events h p ++ [found_port p] |}.
Proof.
  unfold is_match, probed, skipped, reply_text, has_signature.
  run_loop.
  destruct (String.eqb (platform h) "linux"
            && negb (contains "ttyUSB" (device p))); [discriminate|].
  destruct (manufacturer p); [discriminate|].
  destruct (is_open h (device p)); [|discriminate]. cbn.
  destruct (Utf8.decode (response h (device p))) as [t|]; [|discriminate].
  case_signature; [|discriminate].
  reflexivity.
Qed.

(** A response that is not text ends the loop with the decoding
    error, after the port is closed. *)
Lemma find_in_undecodable p rest s :
  undecodable h p = true ->
  find_in h (p :: rest) s =
  {| outcome_of := Raise UnicodeDecodeError; final := s;
     emitted := probe_events h p |}.
Proof.
  unfold undecodable, probed, skipped, reply_text.
  run_loop.
  destruct (String.eqb (platform h) "linux"
            && negb (contains "ttyUSB" (device p))); [discriminate|].
  destruct (manufacturer p); [discriminate|].
  destruct (is_open h (device p)); [|discriminate]. cbn.
  destruct (Utf8.decode (response h (device p))) as [t|]; [discriminate|].
  reflexivity.
Qed.

Lemma after_after {A} a b (r : result A) :
  after a (after b r) = after (a ++ b) r.
Proof. unfold after; simpl. now rewrite app_assoc. Qed.

Lemma after_nil {A} (r : result A) : after [] r = r.
Proof. now destruct r. Qed.

Lemma find_in_visit_all pre rest s :
  Forall (fun p => no_match h p = true) pre ->
  find_in h (pre ++ rest) s =
  after (flat_map (visit_events h) pre) (find_in h rest s).
Proof.
  induction 1 as [|p pre Hp _ IH].
  - simpl. now rewrite after_nil.
  - simpl app. rewrite (find_in_visit _ _ _ Hp), IH.
    now rewrite after_after.
Qed.

(** The three ways a candidate can be. *)
Lemma candidate_cases p :
  no_match h p = true \/ is_match h p = true \/ undecodable h p = true.
Proof.
  unfold no_match, is_match, undecodable.
  destruct (probed h p); simpl; [|now left].
  destruct (reply_text h p) as [t|]; simpl; [|now right; right].
  destruct (has_signature t); simpl; [now right; left | now left].
Qed.

Lemma find_serial_port_run s :
  __find_serial_port h s = after [start_search] (find_in h (comports h) s).
Proof. reflexivity. Qed.

(** The constructor: the search, then the builder's set-up or the
    error. *)
Lemma init_run s :
  __init__ h s =
  let r := __find_serial_port h s in
  match outcome_of r with
  | Return (Some dev) =>
      {| outcome_of := Return tt;
         final := {| serial_port := Some (Some dev);
                     ode_content := ode_content (final r) |};
         emitted := emitted r ++
           [BuilderInit "serial" dev 115200;
            SetBounds "bed-temperature" [0] [100];
            SetBounds "feed-rate" [50] [7000];
            SetBounds "axes" [0; 0; 0] [235; 235; 90];
            SetLengthUnits "mm"; SetTimeUnits "s"; AbsoluteMode;
            Write "M203 X5000 Y5000 Z10.0"; Write "M204 P1000 T1000"] |}
  | Return None =>
      {| outcome_of := Raise port_not_found;
         final := {| serial_port := Some None;
                     ode_content := ode_content (final r) |};
         emitted := emitted r |}
  | Raise e =>
      {| outcome_of := Raise e; final := final r; emitted := emitted r |}
  end.
Proof.
  unfold __init__. unfold bind at 1. cbv zeta.
  destruct (__find_serial_port h s) as [[[dev|]|e] s' es]; cbn;
    try reflexivity.
  now rewrite app_nil_r.
Qed.

End OnHost.

End Resolver.

(** ** The translator: the stated properties *)

Module TranslatorClaims.
Import PyStr Py Ender Spec PyStrFacts Translator.

(** C1, as stated, fails: translating ["G1 X10 Y20 F300"] with scale 2.0
    and no override does not send the linear move with x = 20.0,
    y = 20.0, feedrate = 300.0 and no z; the Y field is scaled too. *)
Lemma C1_counterexample :
  moves_of_run "G1 X10 Y20 F300" None None 2%float <>
  [Move Linear (Some 20%float) (Some 20%float) None
     (Some (PyFloat 300%float))].
Proof.
  intros H. apply (f_equal (single_y_is 20%float)) in H.
  vm_compute in H. discriminate.
Qed.

(** C1, amended: translating ["G1 X10 Y20 F300"] with scale 2.0 and no
    override sends exactly one linear move, with x = 20.0, y = 40.0,
    feedrate = 300.0 and no z.  In general a well-formed linear line
    sends one move whose x, y and z are the numbers of the last X, Y and
    Z fields times the scale, and whose feedrate is the override or the
    number of the last F field as it stands: the scale does not enter
    it. *)
Theorem C1_linear_move_scales_axes_only :
  moves_of_run "G1 X10 Y20 F300" None None 2%float =
  [Move Linear (Some 20%float) (Some 40%float) None
     (Some (PyFloat 300%float))]
  /\
  forall rf mf scale line s,
    kind_of line = Some Linear ->
    malformed_line rf mf line = false ->
    outcome_of (process_line rf mf scale line s) = Return tt /\
    moves (emitted (process_line rf mf scale line s)) =
    [Move Linear
       (scaled_last scale "X" (fields_of line))
       (scaled_last scale "Y" (fields_of line))
       (scaled_last scale "Z" (fields_of line))
       match mf with
       | Some n => Some (PyInt n)
       | None => last_feed (fields_of line) None
       end].
Proof.
  split; [vm_compute; reflexivity|].
  intros rf mf scale line s Hk Hok.
  rewrite (process_line_ok _ _ _ _ _ Hok). split; [reflexivity|].
  cbn [emitted]. rewrite moves_line_events, Hk.
  unfold move_of, vars_of, feedrate_of; simpl. now destruct mf.
Qed.

Lemma C1_witness :
  kind_of "G1 X10 Y20 F300" = Some Linear /\
  malformed_line None None "G1 X10 Y20 F300" = false /\
  moves (emitted (process_line None None 2%float "G1 X10 Y20 F300" fresh)) =
  [Move Linear (Some 20%float) (Some 40%float) None
     (Some (PyFloat 300%float))].
Proof.
  split; [reflexivity|]. split; [vm_compute; reflexivity|].
  destruct (proj2 C1_linear_move_scales_axes_only None None 2%float
              "G1 X10 Y20 F300" fresh) as [_ H];
    [reflexivity | vm_compute; reflexivity |].
  rewrite H. vm_compute. reflexivity.
Defined.

(** C2: on a rapid line an F field is read only while the feedrate
    variable is [None], so with several F fields the first one is sent,
    where the claim has the last; the linear branch, which tests the
    override instead, sends the last.  X, Y and Z fields follow the claim
    on both kinds of line. *)
Theorem C2_rapid_line_keeps_first_feedrate :
  moves_of_run "G0 F100 F200" None None 1%float =
  [Move Rapid None None None (Some (PyFloat 100%float))]
  /\
  moves_of_run "G1 F100 F200" None None 1%float =
  [Move Linear None None None (Some (PyFloat 200%float))]
  /\
  moves_of_run "G0 X1 X2" None None 1%float =
  [Move Rapid (Some 2%float) None None None]
  /\
  forall mf scale line s,
    kind_of line = Some Rapid ->
    malformed_line None mf line = false ->
    moves (emitted (process_line None mf scale line s)) =
    [Move Rapid
       (scaled_last scale "X" (fields_of line))
       (scaled_last scale "Y" (fields_of line))
       (scaled_last scale "Z" (fields_of line))
       (first_feed (fields_of line))].
Proof.
  repeat (split; [vm_compute; reflexivity|]).
  intros mf scale line s Hk Hok.
  rewrite (process_line_ok _ _ _ _ _ Hok). cbn [emitted].
  now rewrite moves_line_events, Hk.
Qed.

(** C5, as stated, fails: ["G1 Fabc"] has malformed text after the
    letter F, yet with a linear override the run ends normally and the
    move is sent: the F field is not read. *)
Lemma C5_counterexample :
  bad "F" "Fabc" = true /\
  outcome_of (print_from_gcode (host_with_file "a.gcode" "G1 Fabc") "a.gcode"
                None (Some 100) 1%float fresh) = Return tt /\
  moves_of_run "G1 Fabc" None (Some 100) 1%float =
  [Move Linear None None None (Some (PyInt 100))].
Proof. repeat split; vm_compute; reflexivity. Qed.

(** A line that is only a marker but still carries its line ending is not
    dispatched: the first token is the marker with the newline. *)
Lemma bare_marker_with_newline_not_dispatched :
  kind_of (nl "G1") = None /\
  moves_of_run bare_marker_program None None 1%float =
  [Move Rapid (Some 1%float) None None None].
Proof. split; vm_compute; reflexivity. Qed.




(** C7: under an override for the kind of a line, a line that raises
    nothing sends one move of that kind with the override as feedrate;
    whether the line raises, and the variables the loop ends with, are the
    same with the F fields of the line taken out.  In particular
    ["G0 X5"] with rapid override 1500 and scale 1.0 sends the rapid move
    with x = 5.0 and feedrate 1500. *)
Theorem C7_override_takes_precedence :
  moves_of_run "G0 X5" (Some 1500) None 1%float =
  [Move Rapid (Some 5%float) None None (Some (PyInt 1500))]
  /\
  forall rf mf scale line k n s,
    kind_of line = Some k ->
    override_of k rf mf = Some n ->
    fold_fields k rf mf scale (filter not_feed (fields_of line)) =
    fold_fields k rf mf scale (fields_of line) /\
    malformed_line rf mf line = existsb bad_axis (fields_of line) /\
    (malformed_line rf mf line = false ->
     outcome_of (process_line rf mf scale line s) = Return tt /\
     moves (emitted (process_line rf mf scale line s)) =
     [Move k
        (scaled_last scale "X" (fields_of line))
        (scaled_last scale "Y" (fields_of line))
        (scaled_last scale "Z" (fields_of line))
        (Some (PyInt n))]).
Proof.
  split; [vm_compute; reflexivity|].
  intros rf mf scale line k n s Hk Ho.
  split; [exact (fold_fields_without_feed _ _ _ _ _ _ Ho)|].
  split.
  - unfold malformed_line. rewrite Hk.
    exact (malformed_fields_override _ _ _ _ _ Ho).
  - intros Hok. rewrite (process_line_ok _ _ _ _ _ Hok).
    split; [reflexivity|]. cbn [emitted].
    rewrite moves_line_events, Hk.
    unfold move_of, vars_of, feedrate_of. now rewrite Ho.
Qed.

Lemma C7_witness :
  kind_of "G0 X5 F200" = Some Rapid /\
  override_of Rapid (Some 1500) None = Some 1500 /\
  malformed_line (Some 1500) None "G0 X5 F200" = false /\
  moves (emitted (process_line (Some 1500) None 1%float "G0 X5 F200" fresh)) =
  [Move Rapid (Some 5%float) None None (Some (PyInt 1500))].
Proof.
  split; [reflexivity|]. split; [reflexivity|].
  split; [vm_compute; reflexivity|].
  destruct (proj2 C7_override_takes_precedence (Some 1500) None 1%float
              "G0 X5 F200" Rapid 1500 fresh eq_refl eq_refl)
    as (_ & _ & H).
  destruct H as [_ H]; [vm_compute; reflexivity|].
  rewrite H. vm_compute. reflexivity.
Defined.

(** C10: a run on an existing file leaves, however it ends, the lines
    read from the file in the attribute [ode_content], and these lines put
    end to end are the whole text read; the other attribute is untouched.
    No other method assigns [ode_content], so it stays until a later run
    stores its own lines. *)
Theorem C10_run_retains_source_lines :
  forall h f_path rf mf scale s content,
    files h f_path = Some content ->
    final (print_from_gcode h f_path rf mf scale s) =
      with_content s (readlines content) /\
    ode_content (final (print_from_gcode h f_path rf mf scale s)) =
      Some (readlines content) /\
    String.concat EmptyString (readlines content) =
      universal_newlines content /\
    (forall n zero_coords s',
        final (use_workpiece_coordinate_system n zero_coords s') = s') /\
    (forall s', final (use_machine_coordinate_system s') = s') /\
    (forall s', final (get_position h s') = s') /\
    (forall disconnect s', final (print disconnect s') = s').
Proof.
  intros h f_path rf mf scale s content Hf.
  rewrite (print_from_gcode_run _ _ _ _ _ _ _ Hf).
  unfold after; cbn [final]. rewrite for_each_final.
  repeat split.
  - apply concat_keepends.
  - intros n zc s'. unfold use_workpiece_coordinate_system.
    destruct (negb _); [reflexivity|].
    unfold Py.bind. destruct (gcode_cmd n); simpl; [|reflexivity].
    now destruct zc.
  - intros d s'. now destruct d.
Qed.

Lemma C10_witness :
  ode_content
    (final (print_from_gcode (host_with_file "a.gcode" broken_program)
              "a.gcode" None None 1%float fresh)) =
  Some [nl "G0 X1"; nl "G1 Xabc"; "G1 X2"].
Proof.
  destruct (C10_run_retains_source_lines
              (host_with_file "a.gcode" broken_program) "a.gcode"
              None None 1%float fresh _ eq_refl) as (_ & H & _).
  exact H.
Defined.

End TranslatorClaims.

(** ** Port resolution and the session: the stated properties *)

Module SessionClaims.
Import PyStr Py Ender Spec Resolver.

Lemma serial_ops_app a b :
  serial_ops (a ++ b) = (serial_ops a ++ serial_ops b)%list.
Proof. apply filter_app. Qed.

(** C3, as stated, fails: the first port answers with bytes that are not
    text, and the search ends with the decoding error, raised out of the
    constructor, instead of moving on to the next port. *)
Lemma C3_counterexample :
  undecodable host_garbage_then_printer (usb "0") = true /\
  outcome_of (__find_serial_port host_garbage_then_printer fresh) =
    Raise UnicodeDecodeError /\
  outcome_of (__init__ host_garbage_then_printer fresh) =
    Raise UnicodeDecodeError.
Proof. repeat split; vm_compute; reflexivity. Qed.

(** C3, amended: when the candidates before a probed candidate are no
    match and its response does not decode as text, the search raises the
    decoding error to its caller, and the constructor raises it on; the
    port has been closed, and no later candidate is opened. *)
Theorem C3_decode_failure_propagates :
  forall h pre p post s,
    comports h = (pre ++ p :: post)%list ->
    Forall (fun q => no_match h q = true) pre ->
    undecodable h p = true ->
    __find_serial_port h s =
    {| outcome_of := Raise UnicodeDecodeError; final := s;
       emitted := (start_search :: flat_map (visit_events h) pre
                   ++ probe_events h p)%list |} /\
    outcome_of (__init__ h s) = Raise UnicodeDecodeError /\
    emitted (__init__ h s) = emitted (__find_serial_port h s).
Proof.
  intros h pre p post s Hc Hpre Hp.
  assert (E : __find_serial_port h s =
              {| outcome_of := Raise UnicodeDecodeError; final := s;
                 emitted := (start_search :: flat_map (visit_events h) pre
                             ++ probe_events h p)%list |}).
  { rewrite find_serial_port_run, Hc, (find_in_visit_all _ _ _ _ Hpre).
    now rewrite (find_in_undecodable _ _ _ _ Hp). }
  split; [exact E|]. rewrite init_run, E. split; reflexivity.
Qed.

Lemma C3_witness :
  outcome_of (__find_serial_port host_garbage_then_printer fresh) =
    Raise UnicodeDecodeError /\
  serial_ops (emitted (__find_serial_port host_garbage_then_printer fresh)) =
    probe_ops (usb "0").
Proof.
  destruct (C3_decode_failure_propagates host_garbage_then_printer
              [] (usb "0") [usb "1"] fresh eq_refl (Forall_nil _))
    as (E & _ & _); [vm_compute; reflexivity|].
  rewrite E. split; reflexivity.
Defined.

(** C4, as stated, fails: the only port answers with bytes that are not
    text, so no response has the signature, and the constructor fails with
    the decoding error, not with the port-not-found error. *)
Lemma C4_counterexample :
  forallb (lacks_signature host_garbage_only) (comports host_garbage_only)
    = true /\
  outcome_of (__init__ host_garbage_only fresh) = Raise UnicodeDecodeError /\
  outcome_of (__init__ host_garbage_only fresh) <> Raise port_not_found.
Proof.
  repeat split; try (vm_compute; reflexivity).
  vm_compute. discriminate.
Qed.

(** C4, amended: when every candidate is no match (it is not probed, or
    its response decodes as text without the signature), the search goes
    through the whole list and returns [None], and the constructor fails
    with the port-not-found error, a [RuntimeError], before any call on
    the builder. *)
Theorem C4_no_match_is_port_not_found :
  forall h s,
    Forall (fun p => no_match h p = true) (comports h) ->
    __find_serial_port h s =
    {| outcome_of := Return None; final := s;
       emitted := start_search :: flat_map (visit_events h) (comports h) |} /\
    outcome_of (__init__ h s) = Raise port_not_found /\
    emitted (__init__ h s) = emitted (__find_serial_port h s).
Proof.
  intros h s Hall.
  assert (E : __find_serial_port h s =
              {| outcome_of := Return None; final := s;
                 emitted := start_search
                            :: flat_map (visit_events h) (comports h) |}).
  { rewrite find_serial_port_run.
    rewrite <- (app_nil_r (comports h)) at 1.
    rewrite (find_in_visit_all _ _ _ _ Hall).
    cbn [find_in]. unfold after, ret. cbn [outcome_of final emitted app].
    now rewrite app_nil_r. }
  split; [exact E|]. rewrite init_run, E. split; reflexivity.
Qed.

Lemma C4_witness :
  outcome_of (__init__ host_without_printer fresh) = Raise port_not_found /\
  serial_ops (emitted (__init__ host_without_printer fresh)) =
    probe_ops (usb "1").
Proof.
  destruct (C4_no_match_is_port_not_found host_without_printer fresh)
    as (_ & Ho & Ee).
  - repeat (constructor; [vm_compute; reflexivity|]). constructor.
  - split; [exact Ho|]. rewrite Ee. vm_compute. reflexivity.
Defined.

(** C9, as stated, fails: the second port is the first whose response has
    the signature, but the port before it answers with bytes that are not
    text, and the search raises instead of returning the second port. *)
Lemma C9_counterexample :
  is_match host_garbage_then_printer (usb "0") = false /\
  is_match host_garbage_then_printer (usb "1") = true /\
  outcome_of (__find_serial_port host_garbage_then_printer fresh) =
    Raise UnicodeDecodeError /\
  outcome_of (__find_serial_port host_garbage_then_printer fresh) <>
    Return (Some (device (usb "1"))).
Proof.
  repeat split; try (vm_compute; reflexivity).
  vm_compute. discriminate.
Qed.

(** C9, amended: when a probed candidate's response decodes as text with
    the signature and every candidate before it is no match (not probed,
    or answering with text without the signature), the search returns the
    device of that candidate; its events end with the probe of that
    candidate and the record of the find, so no later candidate is
    opened. *)
Theorem C9_first_match_is_returned :
  forall h pre p post s,
    comports h = (pre ++ p :: post)%list ->
    Forall (fun q => no_match h q = true) pre ->
    is_match h p = true ->
    __find_serial_port h s =
    {| outcome_of := Return (Some (device p)); final := s;
       emitted := (start_search :: flat_map (visit_events h) pre
                   ++ probe_events h p ++ [found_port p])%list |} /\
    serial_ops (emitted (__find_serial_port h s)) =
    (serial_ops (flat_map (visit_events h) pre) ++ probe_ops p)%list.
Proof.
  intros h pre p post s Hc Hpre Hp.
  assert (E : __find_serial_port h s =
              {| outcome_of := Return (Some (device p)); final := s;
                 emitted := (start_search :: flat_map (visit_events h) pre
                             ++ probe_events h p ++ [found_port p])%list |}).
  { rewrite find_serial_port_run, Hc, (find_in_visit_all _ _ _ _ Hpre).
    now rewrite (find_in_match _ _ _ _ Hp). }
  split; [exact E|]. rewrite E. cbn [emitted].
  change (serial_ops (start_search :: ?x)) with (serial_ops x).
  unfold serial_ops at 1. cbn [filter start_search]. fold serial_ops.
  now rewrite serial_ops_app.
Qed.

Lemma C9_witness :
  outcome_of (__find_serial_port host_with_printer fresh) =
    Return (Some "/dev/ttyUSB2") /\
  serial_ops (emitted (__find_serial_port host_with_printer fresh)) =
    (probe_ops (usb "1") ++ probe_ops (usb "2"))%list.
Proof.
  destruct (C9_first_match_is_returned host_with_printer
              [{| device := "/dev/ttyS0"; manufacturer := None |};
               {| device := "/dev/ttyUSB0"; manufacturer := Some "FTDI" |};
               usb "1"]
              (usb "2") [usb "3"] fresh eq_refl) as (E & Ops).
  - repeat (constructor; [vm_compute; reflexivity|]). constructor.
  - vm_compute; reflexivity.
  - split; [now rewrite E | rewrite Ops; vm_compute; reflexivity].
Defined.

(** The selector codes of the source are those of the specification's
    table. *)
Lemma gcode_cmd_table (n : Z) : gcode_cmd n = lookup n selector_table.
Proof.
  destruct n as [|p|p]; try reflexivity.
  do 4 (destruct p as [p|p|]; try reflexivity).
Qed.

(** C8: for a selector from 1 to 9 the method raises nothing and writes
    the one code the table maps the selector to (followed by the zeroing
    of X and Y when that is asked for); for any other selector it raises
    nothing, calls nothing on the builder and logs one warning. *)
Theorem C8_select_coordinate_system :
  forall n zero_coords s,
    (1 <= n <= 9 ->
     exists code,
       lookup n selector_table = Some code /\
       use_workpiece_coordinate_system n zero_coords s =
       {| outcome_of := Return tt; final := s;
          emitted := select_events code zero_coords |}) /\
    (~ 1 <= n <= 9 ->
     use_workpiece_coordinate_system n zero_coords s =
     {| outcome_of := Return tt; final := s;
        emitted := [coordinate_warning] |}).
Proof.
  intros n zc s. unfold use_workpiece_coordinate_system. split.
  - intros Hn.
    assert (Hin : (1 <=? n) && (n <=? 9) = true)
      by (apply andb_true_iff; split; apply Z.leb_le; lia).
    rewrite Hin. cbn [negb]. rewrite gcode_cmd_table.
    assert (Hc : n = 1 \/ n = 2 \/ n = 3 \/ n = 4 \/ n = 5 \/ n = 6 \/
                 n = 7 \/ n = 8 \/ n = 9) by lia.
    repeat (destruct Hc as [->|Hc]); try subst n;
      (eexists; split; [reflexivity|]; now destruct zc).
  - intros Hn.
    assert (Hout : (1 <=? n) && (n <=? 9) = false).
    { apply andb_false_iff.
      destruct (Z.leb_spec 1 n); [|now left].
      destruct (Z.leb_spec n 9); [lia | now right]. }
    rewrite Hout. reflexivity.
Qed.

Lemma C8_witness :
  use_workpiece_coordinate_system 7 false fresh =
  {| outcome_of := Return tt; final := fresh; emitted := [Write "G59.1"] |} /\
  use_workpiece_coordinate_system 10 true fresh =
  {| outcome_of := Return tt; final := fresh;
     emitted := [coordinate_warning] |}.
Proof.
  split.
  - destruct (proj1 (C8_select_coordinate_system 7 false fresh))
      as (code & Hc & E); [lia|].
    rewrite E. injection Hc as <-. reflexivity.
  - apply (proj2 (C8_select_coordinate_system 10 true fresh)). lia.
Defined.

End SessionClaims.

(** ** The translator: whole runs, comments, other fields *)

Module TranslatorMore.
Import PyStr Py Ender Spec SpecMore PyStrFacts Translator.

Lemma existsb_false_Forall {A} (P : A -> bool) (l : list A) :
  existsb P l = false -> Forall (fun a => P a = false) l.
Proof.
  induction l as [|a l IH]; simpl; [constructor|].
  intros H. apply orb_false_iff in H as [Ha Hl]. constructor; auto.
Qed.

Lemma moves_of_lines rf mf scale (lines : list string) :
  moves (flat_map (line_events rf mf scale) lines) =
  flat_map (line_moves rf mf scale) lines.
Proof.
  induction lines as [|l ls IH]; [reflexivity|].
  simpl flat_map. rewrite moves_app, IH, moves_line_events.
  reflexivity.
Qed.

(** A run on an existing file, by whether a line of it is malformed. *)
Lemma print_from_gcode_cases h f_path rf mf scale s content :
  files h f_path = Some content ->
  final (print_from_gcode h f_path rf mf scale s) =
    with_content s (readlines content) /\
  outcome_of (print_from_gcode h f_path rf mf scale s) =
    (if existsb (malformed_line rf mf) (readlines content)
     then Raise ValueError else Return tt).
Proof.
  intros Hf. rewrite (print_from_gcode_run _ _ _ _ _ _ _ Hf).
  unfold after; cbn [final outcome_of]. rewrite for_each_final.
  split; [reflexivity|].
  destruct (existsb (malformed_line rf mf) (readlines content)) eqn:E.
  - destruct (first_split _ _ E) as (pre & l & post & -> & Hpre & Hl).
    now rewrite (for_each_abort _ _ _ _ _ _ _ Hpre Hl).
  - now rewrite (for_each_ok _ _ _ _ _ (existsb_false_Forall _ _ E)).
Qed.

(** *** Comments *)

Lemma hd_split_other (sep c : ascii) (r : string) :
  Ascii.eqb c sep = false ->
  hd EmptyString (split sep (String c r)) =
  String c (hd EmptyString (split sep r)).
Proof.
  intros E. simpl. rewrite E.
  now destruct (split_cons sep r) as (w & ws & ->).
Qed.

(** The first piece of a split is not changed by what follows a
    separator. *)
Lemma hd_split_app (sep : ascii) (a c : string) :
  hd EmptyString (split sep (a ++ String sep c)) =
  hd EmptyString (split sep a).
Proof.
  induction a as [|x a IH].
  - simpl. now rewrite Ascii.eqb_refl.
  - change (String x a ++ String sep c)%string
      with (String x (a ++ String sep c)).
    destruct (Ascii.eqb x sep) eqn:E.
    + simpl. now rewrite E.
    + now rewrite !hd_split_other, IH.
Qed.

(** X3: what follows the first [;] of a line plays no part: the line has
    the tokens of its code part alone, and so it ends the same way and
    sends the same move as the code part would. *)
Theorem X3_comment_is_ignored :
  forall rf mf scale code comment s,
    tokens (code ++ String ";" comment) = tokens code /\
    outcome_of (process_line rf mf scale (code ++ String ";" comment) s) =
    outcome_of (process_line rf mf scale code s) /\
    moves (emitted (process_line rf mf scale (code ++ String ";" comment) s)) =
    moves (emitted (process_line rf mf scale code s)).
Proof.
  intros rf mf scale code comment s.
  assert (T : tokens (code ++ String ";" comment) = tokens code)
    by (unfold tokens; now rewrite hd_split_app).
  split; [exact T|].
  rewrite !process_line_run. unfold kind_of, fields_of. rewrite T.
  destruct (tokens code) as [|k fs]; [split; reflexivity|].
  destruct (String.eqb k "G0"); [|destruct (String.eqb k "G1")];
    try (split; reflexivity);
    match goal with
    | |- context [fold_fields ?k ?a ?b ?c ?d] =>
        destruct (fold_fields k a b c d)
    end; split; reflexivity.
Qed.

(** *** Tokens the loops do not look at *)

Section Keep.
Variable keep : string -> bool.

Lemma existsb_filter_keep (P : string -> bool) (toks : list string) :
  (forall t, P t = true -> keep t = true) ->
  existsb P (filter keep toks) = existsb P toks.
Proof.
  intros H. induction toks as [|t r IH]; [reflexivity|]. simpl.
  destruct (keep t) eqn:K; simpl; rewrite IH; [reflexivity|].
  destruct (P t) eqn:E; [|reflexivity].
  rewrite (H _ E) in K. discriminate.
Qed.

Variable letter : ascii.
Hypothesis keeps_letter :
  forall t, startswith t (letter_str letter) = true -> keep t = true.

Lemma dropped_not_letter (t : string) :
  keep t = false -> startswith t (letter_str letter) = false.
Proof.
  intros K. destruct (startswith t (letter_str letter)) eqn:E; [|reflexivity].
  rewrite (keeps_letter _ E) in K. discriminate.
Qed.

Lemma last_token_keep (toks : list string) :
  last_token letter (filter keep toks) = last_token letter toks.
Proof.
  induction toks as [|t r IH]; [reflexivity|]. simpl.
  destruct (keep t) eqn:K; simpl; rewrite IH; [reflexivity|].
  rewrite (dropped_not_letter _ K). now destruct (last_token letter r).
Qed.

Lemma first_token_keep (toks : list string) :
  first_token letter (filter keep toks) = first_token letter toks.
Proof.
  induction toks as [|t r IH]; [reflexivity|]. simpl.
  destruct (keep t) eqn:K; simpl.
  - now rewrite IH.
  - now rewrite (dropped_not_letter _ K).
Qed.

End Keep.

Lemma is_field_letter (letter : ascii) (t : string) :
  letter = "X"%char \/ letter = "Y"%char \/ letter = "Z"%char
  \/ letter = "F"%char ->
  startswith t (letter_str letter) = true -> is_field t = true.
Proof.
  unfold is_field.
  intros [-> | [-> | [-> | ->]]] ->; rewrite ?orb_true_r; reflexivity.
Qed.

Lemma bad_is_field (letter : ascii) (t : string) :
  letter = "X"%char \/ letter = "Y"%char \/ letter = "Z"%char
  \/ letter = "F"%char ->
  bad letter t = true -> is_field t = true.
Proof.
  intros L B. apply (is_field_letter letter t L).
  unfold bad in B. now apply andb_true_iff in B as [B _].
Qed.

Lemma bad_axis_is_field (t : string) : bad_axis t = true -> is_field t = true.
Proof.
  unfold bad_axis. intros B.
  apply orb_true_iff in B as [B|B]; [apply orb_true_iff in B as [B|B]|].
  - apply (bad_is_field "X"); auto.
  - apply (bad_is_field "Y"); auto.
  - apply (bad_is_field "Z"); auto.
Qed.

Lemma malformed_fields_fields_only k rf mf toks :
  malformed_fields k rf mf (filter is_field toks) =
  malformed_fields k rf mf toks.
Proof.
  destruct k; simpl.
  - rewrite (existsb_filter_keep _ _ _ bad_axis_is_field).
    unfold first_feed_bad.
    now rewrite (first_token_keep is_field "F")
      by (intros t; apply is_field_letter; auto).
  - apply existsb_filter_keep. intros t B.
    apply orb_true_iff in B as [B|B]; [now apply bad_axis_is_field|].
    apply andb_true_iff in B as [_ B].
    apply (bad_is_field "F"); auto.
Qed.

Lemma vars_of_fields_only k rf mf scale toks :
  vars_of k rf mf scale (filter is_field toks) = vars_of k rf mf scale toks.
Proof.
  unfold vars_of, scaled_last, feedrate_of, first_feed, last_feed.
  rewrite !(last_token_keep is_field)
    by (intros t; apply is_field_letter; auto).
  now rewrite (first_token_keep is_field "F")
    by (intros t; apply is_field_letter; auto).
Qed.

(** X4: tokens that start with none of X, Y, Z and F (an E field, a
    lower-case letter, the empty token between two spaces) play no part
    in the loop over the fields: it raises or ends with the same variables
    when they are taken out. *)
Theorem X4_other_tokens_are_ignored :
  forall k rf mf scale toks,
    fold_fields k rf mf scale (filter is_field toks) =
    fold_fields k rf mf scale toks.
Proof.
  intros k rf mf scale toks. rewrite !fold_fields_run.
  now rewrite malformed_fields_fields_only, vars_of_fields_only.
Qed.

(** X5: the override of the other kind of move plays no part in a line:
    two policies that agree on the override of the kind of a line
    translate it to the same events. *)
Theorem X5_only_the_override_of_the_kind_counts :
  forall rf mf rf' mf' scale line k s,
    kind_of line = Some k ->
    override_of k rf mf = override_of k rf' mf' ->
    process_line rf mf scale line s = process_line rf' mf' scale line s.
Proof.
  intros rf mf rf' mf' scale line k s Hk Ho.
  rewrite !process_line_run, Hk.
  destruct k; simpl in Ho; subst; reflexivity.
Qed.

Lemma X5_witness :
  process_line (Some 1500) None 1%float "G1 X1 F5" fresh =
  process_line None None 1%float "G1 X1 F5" fresh.
Proof.
  exact (X5_only_the_override_of_the_kind_counts (Some 1500) None None None
           1%float "G1 X1 F5" Linear fresh eq_refl eq_refl).
Defined.

(** *** The text of a field *)

Lemma split_without_sep (sep : ascii) (a : string) :
  has_char sep a = false -> split sep a = [a].
Proof.
  induction a as [|x a IH]; [reflexivity|]. simpl.
  intros H. apply orb_false_iff in H as [Hx Ha].
  now rewrite Hx, (IH Ha).
Qed.

Lemma split_at_sep (sep : ascii) (a b : string) :
  has_char sep a = false ->
  split sep (a ++ String sep b) = a :: split sep b.
Proof.
  induction a as [|x a IH].
  - intros _. simpl. now rewrite Ascii.eqb_refl.
  - simpl. intros H. apply orb_false_iff in H as [Hx Ha].
    now rewrite Hx, (IH Ha).
Qed.

(** X6: the number of a field is read from the text between its letter
    and the next occurrence of the same letter in the token, or the end
    of the token: what follows a second occurrence is dropped, so [X1X2]
    is read as 1. *)
Theorem X6_field_text_ends_at_next_letter :
  forall letter a b,
    has_char letter a = false ->
    field_value letter (String letter a) = to_float a /\
    field_value letter (String letter (a ++ String letter b)) = to_float a.
Proof.
  intros letter a b H. unfold field_value. simpl.
  rewrite Ascii.eqb_refl, (split_without_sep _ _ H), (split_at_sep _ _ _ H).
  split; reflexivity.
Qed.

Lemma X6_witness :
  field_value "X" "X1X2" = Return 1%float /\
  field_value "X" "X1" = Return 1%float.
Proof.
  destruct (X6_field_text_ends_at_next_letter "X" "1" "2" eq_refl)
    as [H1 H2].
  split.
  - etransitivity; [exact H2 | vm_compute; reflexivity].
  - etransitivity; [exact H1 | vm_compute; reflexivity].
Defined.

(** *** The line ending *)

Lemma has_char_app (c : ascii) (a b : string) :
  has_char c (a ++ b) = has_char c a || has_char c b.
Proof.
  induction a as [|x a IH]; [reflexivity|].
  simpl. now rewrite IH, orb_assoc.
Qed.

(** Once the separator has occurred, text added at the end does not
    change the first piece. *)
Lemma hd_split_app_after (sep : ascii) (a c : string) :
  has_char sep a = true ->
  hd EmptyString (split sep (a ++ c)) = hd EmptyString (split sep a).
Proof.
  induction a as [|x a IH]; [discriminate|].
  change (String x a ++ c)%string with (String x (a ++ c)).
  destruct (Ascii.eqb x sep) eqn:E.
  - intros _. simpl. now rewrite E.
  - simpl has_char. rewrite E. simpl orb. intros H.
    now rewrite !hd_split_other, (IH H).
Qed.

(** Text without separator added at the end goes to the last piece. *)
Lemma split_app_last (sep : ascii) (c : string) :
  has_char sep c = false ->
  forall a init t,
    split sep a = (init ++ [t])%list ->
    split sep (a ++ c) = (init ++ [(t ++ c)%string])%list.
Proof.
  intros Hc. induction a as [|x a IH]; intros init t.
  - simpl. destruct init as [|i [|j init]]; try discriminate.
    intros [= <-]. simpl. now apply split_without_sep.
  - change (String x a ++ c)%string with (String x (a ++ c)).
    simpl. destruct (Ascii.eqb x sep).
    + destruct init as [|i init].
      * destruct (split_cons sep a) as (w & ws & ->). discriminate.
      * intros [= <- E]. now rewrite (IH _ _ E).
    + destruct (split_cons sep a) as (w & ws & E). rewrite E.
      destruct init as [|i init].
      * intros [= <- ->]. now rewrite (IH [] w E).
      * intros [= <- ->]. now rewrite (IH (w :: init) t E).
Qed.

Lemma lstrip_app_space (c : ascii) (cs : PyFloat.chars) :
  is_space c = true ->
  PyFloat.lstrip (cs ++ [c])%list =
  match PyFloat.lstrip cs with
  | [] => []
  | l => (l ++ [c])%list
  end.
Proof.
  intros Hc. induction cs as [|x cs IH]; simpl.
  - now rewrite Hc.
  - destruct (is_space x); [exact IH | reflexivity].
Qed.

Lemma strip_app_space (c : ascii) (cs : PyFloat.chars) :
  is_space c = true ->
  PyFloat.strip (cs ++ [c])%list = PyFloat.strip cs.
Proof.
  intros Hc. unfold PyFloat.strip. rewrite (lstrip_app_space _ _ Hc).
  destruct (PyFloat.lstrip cs) as [|x l]; [reflexivity|].
  rewrite rev_app_distr. simpl rev at 1. simpl app.
  cbn [PyFloat.lstrip]. now rewrite Hc.
Qed.

Lemma list_ascii_of_string_app (a b : string) :
  list_ascii_of_string (a ++ b) =
  (list_ascii_of_string a ++ list_ascii_of_string b)%list.
Proof. induction a as [|x a IH]; [reflexivity|]. simpl. now rewrite IH. Qed.

(** [float] does not see a line ending after the number. *)
Lemma pyfloat_nl (r : string) : PyFloat.pyfloat (nl r) = PyFloat.pyfloat r.
Proof.
  unfold PyFloat.pyfloat, nl. rewrite list_ascii_of_string_app.
  change (list_ascii_of_string (String LF EmptyString)) with [LF].
  now rewrite !strip_app_space by reflexivity.
Qed.

Section FieldLetter.
Variable letter : ascii.
Hypothesis not_LF : Ascii.eqb LF letter = false.

Lemma startswith_nl (t : string) :
  startswith (nl t) (letter_str letter) = startswith t (letter_str letter).
Proof.
  unfold nl, letter_str. destruct t as [|c r].
  - simpl append. now rewrite startswith_letter, not_LF.
  - change (String c r ++ String LF EmptyString)%string
      with (String c (r ++ String LF EmptyString)).
    now rewrite !startswith_letter.
Qed.

Lemma parsed_nl (t : string) :
  startswith t (letter_str letter) = true ->
  parsed letter (nl t) = parsed letter t.
Proof.
  destruct t as [|c r]; [discriminate|].
  unfold letter_str. rewrite startswith_letter. intros E.
  unfold parsed, field_value, nl.
  change (String c r ++ String LF EmptyString)%string
    with (String c (r ++ String LF EmptyString)).
  simpl split. rewrite E.
  assert (Hnl : has_char letter (String LF EmptyString) = false)
    by (cbn [has_char]; now rewrite not_LF).
  destruct (has_char letter r) eqn:H.
  - pose proof (hd_split_app_after letter r (String LF EmptyString) H) as Hd.
    destruct (split_cons letter (r ++ String LF EmptyString))
      as (w & ws & E1).
    destruct (split_cons letter r) as (w' & ws' & E2).
    rewrite E1, E2 in Hd |- *. simpl in Hd. now subst w'.
  - rewrite (split_without_sep _ _ H).
    rewrite split_without_sep by (now rewrite has_char_app, H, Hnl).
    simpl. unfold to_float. fold (nl r). now rewrite pyfloat_nl.
Qed.

Lemma bad_nl (t : string) : bad letter (nl t) = bad letter t.
Proof.
  unfold bad. rewrite startswith_nl.
  destruct (startswith t (letter_str letter)) eqn:E; [|reflexivity].
  now rewrite (parsed_nl _ E).
Qed.

Lemma axis_after_nl scale (t : string) old :
  axis_after scale letter (nl t) old = axis_after scale letter t old.
Proof.
  unfold axis_after. rewrite startswith_nl.
  destruct (startswith t (letter_str letter)) eqn:E; [|reflexivity].
  now rewrite (parsed_nl _ E).
Qed.

End FieldLetter.

Lemma feed_after_nl guard (t : string) old :
  feed_after guard (nl t) old = feed_after guard t old.
Proof.
  unfold feed_after. rewrite (startswith_nl "F") by reflexivity.
  destruct (startswith t (letter_str "F")) eqn:E; [|reflexivity].
  now rewrite (parsed_nl "F") by (reflexivity || exact E).
Qed.

Lemma vars_after_nl guard scale (t : string) v :
  vars_after guard scale (nl t) v = vars_after guard scale t v.
Proof.
  unfold vars_after.
  now rewrite !axis_after_nl, feed_after_nl by reflexivity.
Qed.

Lemma bad_axis_nl (t : string) : bad_axis (nl t) = bad_axis t.
Proof. unfold bad_axis. now rewrite !bad_nl by reflexivity. Qed.

Lemma ofold_last {V} (body : V -> string -> outcome V) (t t' : string) :
  (forall v, body v t' = body v t) ->
  forall init v,
    ofold body v (init ++ [t'])%list = ofold body v (init ++ [t])%list.
Proof.
  intros H. induction init as [|a init IH]; intros v; simpl.
  - now rewrite H.
  - destruct (body v a); simpl; [apply IH | reflexivity].
Qed.

Lemma fold_fields_nl k rf mf scale init (t : string) :
  fold_fields k rf mf scale (init ++ [nl t])%list =
  fold_fields k rf mf scale (init ++ [t])%list.
Proof.
  destruct k; simpl; apply ofold_last; intros v.
  - rewrite !rapid_coord_run.
    now rewrite bad_axis_nl, vars_after_nl, (bad_nl "F") by reflexivity.
  - rewrite !move_coord_run.
    now rewrite bad_axis_nl, vars_after_nl, (bad_nl "F") by reflexivity.
Qed.

(** The tokens of a line with fields, read with its line ending: the same
    first token, and fields that the loops treat alike. *)
Lemma tokens_nl (line k f : string) (fs : list string) :
  tokens line = k :: f :: fs ->
  exists fs',
    tokens (nl line) = k :: fs' /\
    forall kind rf mf scale,
      fold_fields kind rf mf scale fs' =
      fold_fields kind rf mf scale (f :: fs).
Proof.
  unfold tokens, nl. intros T.
  destruct (has_char ";" line) eqn:H.
  - rewrite (hd_split_app_after _ _ _ H), T. eauto.
  - rewrite (split_without_sep ";" line H) in T.
    rewrite (split_without_sep ";" (line ++ String LF EmptyString))
      by (now rewrite has_char_app, H).
    simpl hd in *.
    destruct (exists_last (l := f :: fs)) as (init & t & E); [discriminate|].
    rewrite E in T.
    rewrite (split_app_last " " (String LF EmptyString) eq_refl line
               (k :: init) t T).
    exists (init ++ [nl t])%list.
    split; [reflexivity|]. intros kind rf mf scale.
    rewrite E. apply fold_fields_nl.
Qed.

(** X7: a line with at least one token after its first is translated the
    same with and without its line ending: [float] strips the newline that
    [readlines] leaves on the last field, so the line ends the same way
    and sends the same move. *)
Theorem X7_line_ending_after_fields_is_harmless :
  forall rf mf scale line k f fs s,
    tokens line = k :: f :: fs ->
    outcome_of (process_line rf mf scale (nl line) s) =
    outcome_of (process_line rf mf scale line s) /\
    moves (emitted (process_line rf mf scale (nl line) s)) =
    moves (emitted (process_line rf mf scale line s)).
Proof.
  intros rf mf scale line k f fs s T.
  destruct (tokens_nl _ _ _ _ T) as (fs' & T' & F).
  rewrite !process_line_run. unfold kind_of, fields_of. rewrite T, T'.
  simpl skipn.
  destruct (String.eqb k "G0"); [|destruct (String.eqb k "G1")];
    try (split; reflexivity);
    rewrite F;
    match goal with
    | |- context [fold_fields ?k ?a ?b ?c ?d] =>
        destruct (fold_fields k a b c d)
    end; split; reflexivity.
Qed.

Lemma X7_witness :
  moves (emitted (process_line None None 2%float (nl "G1 X10 F300") fresh)) =
  [Move Linear (Some 20%float) None None (Some (PyFloat 300%float))].
Proof.
  destruct (X7_line_ending_after_fields_is_harmless None None 2%float
              "G1 X10 F300" "G1" "X10" ["F300"] fresh eq_refl) as [_ H].
  rewrite H. vm_compute. reflexivity.
Defined.

End TranslatorMore.

(** ** Port resolution: the whole search, and the constructor *)

Module ResolverMore.
Import PyStr Py Ender Spec SpecMore Resolver.

Lemma serial_ops_concat a b :
  serial_ops (a ++ b) = (serial_ops a ++ serial_ops b)%list.
Proof. apply filter_app. Qed.

Lemma builder_calls_concat a b :
  builder_calls (a ++ b) = (builder_calls a ++ builder_calls b)%list.
Proof. apply filter_app. Qed.

Section OnHost.
Variable h : host.

Lemma match_is_probed p :
  is_match h p = true -> skipped h p = false /\ is_open h (device p) = true.
Proof.
  unfold is_match, probed. intros H.
  apply andb_true_iff in H as [H _]. apply andb_true_iff in H as [S O].
  split; [now apply negb_true_iff | exact O].
Qed.

Lemma undecodable_is_probed p :
  undecodable h p = true ->
  skipped h p = false /\ is_open h (device p) = true.
Proof.
  unfold undecodable, probed. intros H.
  apply andb_true_iff in H as [H _]. apply andb_true_iff in H as [S O].
  split; [now apply negb_true_iff | exact O].
Qed.

Lemma match_not_no_match p : is_match h p = true -> no_match h p = false.
Proof.
  unfold is_match, no_match. destruct (probed h p); [|discriminate].
  destruct (reply_text h p) as [t|]; [|discriminate]. simpl.
  now intros ->.
Qed.

Lemma undecodable_not_no_match p :
  undecodable h p = true -> no_match h p = false.
Proof.
  unfold undecodable, no_match. destruct (probed h p); [|discriminate].
  now destruct (reply_text h p).
Qed.

Lemma serial_ops_visit p : serial_ops (visit_events h p) = candidate_ops h p.
Proof.
  unfold visit_events, candidate_ops.
  destruct (skipped h p); [reflexivity|].
  now destruct (is_open h (device p)).
Qed.

Lemma candidate_ops_probed p :
  skipped h p = false -> is_open h (device p) = true ->
  candidate_ops h p = probe_ops p.
Proof. unfold candidate_ops. now intros -> ->. Qed.

Lemma builder_calls_visit p : builder_calls (visit_events h p) = [].
Proof.
  unfold visit_events. destruct (skipped h p); [reflexivity|].
  now destruct (is_open h (device p)).
Qed.

(** The serial operations of the loop: those of the candidates it gets
    to, one after the other. *)
Lemma find_in_serial_ops ports s :
  serial_ops (emitted (find_in h ports s)) =
  flat_map (candidate_ops h) (visited h ports).
Proof.
  induction ports as [|p rest IH]; [reflexivity|].
  destruct (candidate_cases h p) as [N|[M|U]].
  - rewrite (find_in_visit _ _ _ _ N). simpl visited. rewrite N.
    unfold after; cbn [emitted flat_map].
    now rewrite serial_ops_concat, serial_ops_visit, IH.
  - rewrite (find_in_match _ _ _ _ M). simpl visited.
    rewrite (match_not_no_match _ M). cbn [emitted flat_map].
    destruct (match_is_probed _ M) as [S O].
    now rewrite (candidate_ops_probed _ S O), app_nil_r.
  - rewrite (find_in_undecodable _ _ _ _ U). simpl visited.
    rewrite (undecodable_not_no_match _ U). cbn [emitted flat_map].
    destruct (undecodable_is_probed _ U) as [S O].
    now rewrite (candidate_ops_probed _ S O), app_nil_r.
Qed.

Lemma find_in_final ports s : final (find_in h ports s) = s.
Proof.
  induction ports as [|p rest IH]; [reflexivity|].
  destruct (candidate_cases h p) as [N|[M|U]].
  - now rewrite (find_in_visit _ _ _ _ N).
  - now rewrite (find_in_match _ _ _ _ M).
  - now rewrite (find_in_undecodable _ _ _ _ U).
Qed.

Lemma find_in_builder_calls ports s :
  builder_calls (emitted (find_in h ports s)) = [].
Proof.
  induction ports as [|p rest IH]; [reflexivity|].
  destruct (candidate_cases h p) as [N|[M|U]].
  - rewrite (find_in_visit _ _ _ _ N). unfold after; cbn [emitted].
    now rewrite builder_calls_concat, builder_calls_visit, IH.
  - now rewrite (find_in_match _ _ _ _ M).
  - now rewrite (find_in_undecodable _ _ _ _ U).
Qed.

(** How the loop can end, and what each ending says of the list. *)
Lemma find_in_cases ports s :
  match outcome_of (find_in h ports s) with
  | Return (Some dev) =>
      exists pre p post,
        ports = (pre ++ p :: post)%list /\
        Forall (fun q => no_match h q = true) pre /\
        is_match h p = true /\ dev = device p
  | Return None => Forall (fun q => no_match h q = true) ports
  | Raise e =>
      e = UnicodeDecodeError /\
      exists pre p post,
        ports = (pre ++ p :: post)%list /\
        Forall (fun q => no_match h q = true) pre /\
        undecodable h p = true
  end.
Proof.
  induction ports as [|p rest IH]; [constructor|].
  destruct (candidate_cases h p) as [N|[M|U]].
  - rewrite (find_in_visit _ _ _ _ N). unfold after; cbn [outcome_of].
    destruct (outcome_of (find_in h rest s)) as [[dev|]|e].
    + destruct IH as (pre & q & post & -> & Hpre & Hq & ->).
      exists (p :: pre), q, post. repeat split; auto.
    + constructor; auto.
    + destruct IH as (-> & pre & q & post & -> & Hpre & Hq).
      split; [reflexivity|].
      exists (p :: pre), q, post. repeat split; auto.
  - rewrite (find_in_match _ _ _ _ M). cbn [outcome_of].
    exists [], p, rest. repeat split; auto.
  - rewrite (find_in_undecodable _ _ _ _ U). cbn [outcome_of].
    split; [reflexivity|]. exists [], p, rest. repeat split; auto.
Qed.

Lemma visited_incl ports p : In p (visited h ports) -> In p ports.
Proof.
  induction ports as [|q rest IH]; [easy|]. simpl.
  destruct (no_match h q); simpl; intuition.
Qed.

End OnHost.

(** X9: the serial traffic of a search, on any machine: for each candidate
    up to and including the first that ends the search, in order, nothing
    when the candidate is passed over, the opening alone when its port
    reports not open, and otherwise the opening, the request, the read and
    the closing of the port. *)
Theorem X9_serial_traffic_of_the_search :
  forall h s,
    serial_ops (emitted (__find_serial_port h s)) =
    flat_map (candidate_ops h) (visited h (comports h)).
Proof.
  intros h s. rewrite find_serial_port_run. unfold after; cbn [emitted].
  change (serial_ops ([start_search] ++ ?x)) with (serial_ops x).
  apply find_in_serial_ops.
Qed.

(** X10: no port is left open by a probe, however the search ends: a port
    the request was written to is closed by the end of the search. *)
Theorem X10_written_port_is_closed :
  forall h s dev data,
    In (SerialWrite dev data) (emitted (__find_serial_port h s)) ->
    In (SerialClose dev) (emitted (__find_serial_port h s)).
Proof.
  intros h s dev data Hin.
  assert (Hops : In (SerialWrite dev data)
                   (serial_ops (emitted (__find_serial_port h s))))
    by (apply filter_In; split; [exact Hin | reflexivity]).
  assert (Hgoal : In (SerialClose dev)
                    (serial_ops (emitted (__find_serial_port h s)))).
  { rewrite find_serial_port_run in *. unfold after in *. cbn [emitted] in *.
    change (serial_ops ([start_search] ++ ?x)) with (serial_ops x) in *.
    rewrite find_in_serial_ops in *.
    apply in_flat_map in Hops as (p & Hp & Hw). apply in_flat_map.
    exists p. split; [exact Hp|].
    unfold candidate_ops in *. destruct (skipped h p); [easy|].
    destruct (is_open h (device p)).
    - unfold probe_ops in *. simpl in Hw.
      destruct Hw as [Hw|[Hw|[Hw|[Hw|[]]]]]; try discriminate.
      injection Hw as <- _. simpl. auto.
    - simpl in Hw. destruct Hw as [Hw|[]]. discriminate. }
  now apply filter_In in Hgoal.
Qed.

Lemma X10_witness :
  In (SerialClose "/dev/ttyUSB1")
    (emitted (__find_serial_port host_with_printer fresh)).
Proof.
  apply (X10_written_port_is_closed host_with_printer fresh
           "/dev/ttyUSB1" M115).
  vm_compute. repeat (first [left; reflexivity | right]).
Defined.

(** The device an opening is made on. *)
Lemma opened_device (d d' : string) (b b' : Z) (t t' : float) :
  SerialOpen d b t = SerialOpen d' b' t' -> d = d'.
Proof.
  intros E.
  exact (f_equal (fun e => match e with
                           | SerialOpen x _ _ => x
                           | _ => EmptyString
                           end) E).
Qed.

(** X11: the search opens only ports of candidates it does not pass over:
    a port that is opened belongs to a candidate without manufacturer
    and, on Linux, with [ttyUSB] in its device path. *)
Theorem X11_only_unfiltered_ports_are_opened :
  forall h s dev baud timeout,
    In (SerialOpen dev baud timeout) (emitted (__find_serial_port h s)) ->
    exists p,
      In p (comports h) /\ device p = dev /\ manufacturer p = None /\
      (platform h = "linux" -> contains "ttyUSB" dev = true).
Proof.
  intros h s dev baud timeout Hin.
  assert (Hops : In (SerialOpen dev baud timeout)
                   (serial_ops (emitted (__find_serial_port h s))))
    by (apply filter_In; split; [exact Hin | reflexivity]).
  rewrite find_serial_port_run in Hops. unfold after in Hops.
  cbn [emitted] in Hops.
  change (serial_ops ([start_search] ++ ?x)) with (serial_ops x) in Hops.
  rewrite find_in_serial_ops in Hops.
  apply in_flat_map in Hops as (p & Hp & Ho).
  exists p. split; [now apply (visited_incl h)|].
  unfold candidate_ops, skipped in Ho.
  destruct (String.eqb (platform h) "linux"
            && negb (contains "ttyUSB" (device p))) eqn:L; [easy|].
  destruct (manufacturer p) as [m|]; [easy|]. simpl in Ho.
  assert (D : device p = dev).
  { destruct (is_open h (device p)).
    - destruct Ho as [Ho|[Ho|[Ho|[Ho|[]]]]]; try discriminate.
      exact (opened_device _ _ _ _ _ _ Ho).
    - destruct Ho as [Ho|[]]. exact (opened_device _ _ _ _ _ _ Ho). }
  repeat split; auto.
  intros P. rewrite P, D in L. simpl in L. now apply negb_false_iff in L.
Qed.

Lemma X11_witness :
  exists p,
    In p (comports host_with_printer) /\ device p = "/dev/ttyUSB2" /\
    manufacturer p = None /\
    (platform host_with_printer = "linux" ->
     contains "ttyUSB" "/dev/ttyUSB2" = true).
Proof.
  apply (X11_only_unfiltered_ports_are_opened host_with_printer fresh
           "/dev/ttyUSB2" 115200 0.5%float).
  vm_compute. repeat (first [left; reflexivity | right]).
Defined.

(** X12: the constructor calls the builder only once a port is found, and
    then makes the whole set-up in order: the builder on the found port at
    115200 baud, the three bounds, the units, the absolute mode and the
    two tuning lines.  When the search returns [None] it raises the
    port-not-found error, when the search raises it raises the same
    error, and in both cases no call reaches the builder.  The port
    attribute holds what the search returned; [ode_content] is not
    touched. *)
Theorem X12_constructor_sets_up_only_a_found_port :
  forall h s,
    builder_calls (emitted (__init__ h s)) =
      match outcome_of (__find_serial_port h s) with
      | Return (Some dev) => setup_calls dev
      | _ => []
      end /\
    outcome_of (__init__ h s) =
      match outcome_of (__find_serial_port h s) with
      | Return (Some _) => Return tt
      | Return None => Raise port_not_found
      | Raise e => Raise e
      end /\
    serial_port (final (__init__ h s)) =
      match outcome_of (__find_serial_port h s) with
      | Return port => Some port
      | Raise _ => serial_port s
      end /\
    ode_content (final (__init__ h s)) = ode_content s.
Proof.
  intros h s.
  assert (F : final (__find_serial_port h s) = s)
    by (rewrite find_serial_port_run; apply find_in_final).
  assert (B : builder_calls (emitted (__find_serial_port h s)) = [])
    by (rewrite find_serial_port_run; apply find_in_builder_calls).
  rewrite init_run. cbv zeta.
  destruct (outcome_of (__find_serial_port h s)) as [[dev|]|e];
    cbn [outcome_of final emitted serial_port ode_content];
    rewrite ?builder_calls_concat, ?B, ?F; repeat split; reflexivity.
Qed.

Lemma gcode_cmd_range (n : Z) (c : string) :
  gcode_cmd n = Some c -> 1 <= n <= 9.
Proof.
  destruct n as [|p|p]; try discriminate.
  do 4 (try destruct p as [p|p|]); try discriminate; lia.
Qed.

(** X13: the nine selector codes are pairwise different, and the [match]
    binds a code only for the selectors the range test lets through: the
    code written tells which selector was asked for. *)
Theorem X13_selector_codes_are_distinct :
  forall n m c,
    gcode_cmd n = Some c ->
    gcode_cmd m = Some c ->
    n = m /\ 1 <= n <= 9.
Proof.
  intros n m c Hn Hm.
  pose proof (gcode_cmd_range _ _ Hn) as Rn.
  pose proof (gcode_cmd_range _ _ Hm) as Rm.
  split; [|exact Rn].
  assert (Cn : n = 1 \/ n = 2 \/ n = 3 \/ n = 4 \/ n = 5 \/ n = 6 \/
               n = 7 \/ n = 8 \/ n = 9) by lia.
  assert (Cm : m = 1 \/ m = 2 \/ m = 3 \/ m = 4 \/ m = 5 \/ m = 6 \/
               m = 7 \/ m = 8 \/ m = 9) by lia.
  clear Rn Rm.
  repeat (destruct Cn as [->|Cn]); try subst n;
    repeat (destruct Cm as [->|Cm]); try subst m;
    try reflexivity; simpl in Hn, Hm; congruence.
Qed.

Lemma X13_witness :
  gcode_cmd 7 = Some "G59.1" /\ 7 = 7 /\ 1 <= 7 <= 9.
Proof.
  split; [reflexivity|].
  exact (X13_selector_codes_are_distinct 7 7 "G59.1" eq_refl eq_refl).
Defined.

End ResolverMore.

(** ** Malformed fields, the order of the moves, and what a result of
    the search says *)

Module RunSafety.
Import PyStr Py Ender Spec SpecMore SpecFields PyStrFacts.
Import Translator TranslatorMore Resolver ResolverMore.

Lemma existsb_impl {A} (P Q : A -> bool) (l : list A) :
  (forall a, P a = true -> Q a = true) ->
  existsb P l = true -> existsb Q l = true.
Proof.
  intros H. induction l as [|a l IH]; [discriminate|]. simpl.
  intros E. apply orb_true_iff in E as [E|E]; apply orb_true_iff.
  - left. now apply H.
  - right. now apply IH.
Qed.

(** Malformed text after the letter, as the specification has it, is
    text on which the source raises. *)
Lemma malformed_field_bad (letter : ascii) (tok : string) :
  malformed_field letter tok = true -> bad letter tok = true.
Proof.
  unfold malformed_field, bad. intros H.
  apply andb_true_iff in H as [H N]. apply andb_true_iff in H as [S C].
  rewrite S. destruct tok as [|c r]; [discriminate|].
  unfold letter_str in S. rewrite startswith_letter in S.
  apply Ascii.eqb_eq in S. subst c.
  simpl remainder in C, N. apply negb_true_iff in C.
  unfold parsed, field_value. simpl split.
  rewrite Ascii.eqb_refl, (split_without_sep _ _ C). simpl.
  unfold to_float. now destruct (PyFloat.pyfloat r).
Qed.

Lemma malformed_axis_field_bad (tok : string) :
  malformed_axis_field tok = true -> bad_axis tok = true.
Proof.
  unfold malformed_axis_field, bad_axis. intros H.
  apply orb_true_iff in H as [H|H]; [apply orb_true_iff in H as [H|H]|];
    apply malformed_field_bad in H; rewrite H;
    rewrite ?orb_true_r; reflexivity.
Qed.

Lemma reads_malformed_field_raises k rf mf toks :
  reads_malformed_field k rf mf toks = true ->
  malformed_fields k rf mf toks = true.
Proof.
  unfold reads_malformed_field. intros H.
  apply orb_true_iff in H as [H|H].
  - destruct k; simpl.
    + apply orb_true_iff. left.
      exact (existsb_impl _ _ _ malformed_axis_field_bad H).
    + revert H. apply existsb_impl. intros t B.
      now rewrite (malformed_axis_field_bad _ B).
  - apply andb_true_iff in H as [O H]. destruct k; simpl in *.
    + rewrite O. unfold first_feed_bad.
      destruct (first_token "F" toks) as [t|]; [|discriminate].
      rewrite (malformed_field_bad _ _ H). now rewrite orb_true_r.
    + rewrite O. revert H. apply existsb_impl. intros t B.
      rewrite (malformed_field_bad _ _ B). now rewrite orb_true_r.
Qed.

Lemma malformed_motion_line_raises rf mf line :
  malformed_motion_line rf mf line = true -> malformed_line rf mf line = true.
Proof.
  unfold malformed_motion_line, malformed_line.
  destruct (kind_of line) as [k|]; [|discriminate].
  apply reads_malformed_field_raises.
Qed.

(** The loop over the lines raises at a malformed line at the latest, and
    what it has sent by then comes from the lines before it. *)
Lemma for_each_stops_at_malformed rf mf scale pre l post s :
  malformed_line rf mf l = true ->
  outcome_of (for_each (pre ++ l :: post) (process_line rf mf scale) s) =
    Raise ValueError /\
  moves (emitted (for_each (pre ++ l :: post) (process_line rf mf scale) s)) =
  moves (emitted (for_each pre (process_line rf mf scale) s)).
Proof.
  intros Hl.
  destruct (existsb (malformed_line rf mf) pre) eqn:E.
  - destruct (first_split _ _ E) as (a & x & b & -> & Ha & Hx).
    rewrite <- app_assoc. simpl app.
    now rewrite !(for_each_abort _ _ _ _ _ _ _ Ha Hx).
  - pose proof (existsb_false_Forall _ _ E) as Hpre.
    rewrite (for_each_abort _ _ _ _ _ _ _ Hpre Hl).
    rewrite (for_each_ok _ _ _ _ _ Hpre). cbn [outcome_of emitted].
    split; [reflexivity|].
    now rewrite moves_app, moves_aborted, app_nil_r.
Qed.

(** C5, amended: in a run over ASCII text, a recognized motion line with
    malformed numeric text after the letter of a field the translator
    reads (X, Y or Z; F when the policy has no override for the kind of
    move, on a rapid line the first F field; the letter not occurring
    again in the text) makes the run fail with [ValueError]; no move is
    sent for that line, and the moves of the run are those sent for the
    lines before it: no later line is processed. *)
Theorem C5_malformed_field_aborts_run :
  forall h f_path rf mf scale s content pre l post,
    files h f_path = Some content ->
    is_ascii content = true ->
    readlines content = (pre ++ l :: post)%list ->
    malformed_motion_line rf mf l = true ->
    outcome_of (print_from_gcode h f_path rf mf scale s) = Raise ValueError /\
    moves (emitted (print_from_gcode h f_path rf mf scale s)) =
    moves (emitted (for_each pre (process_line rf mf scale)
                      (with_content s (readlines content)))) /\
    forall s',
      outcome_of (process_line rf mf scale l s') = Raise ValueError /\
      moves (emitted (process_line rf mf scale l s')) = [].
Proof.
  intros h f_path rf mf scale s content pre l post Hf _ E Hl.
  apply malformed_motion_line_raises in Hl.
  rewrite (print_from_gcode_run _ _ _ _ _ _ _ Hf).
  unfold after; cbn [outcome_of emitted app].
  unfold moves at 1. cbn [filter read_contents]. fold moves.
  set (s0 := with_content s (readlines content)). rewrite E.
  destruct (for_each_stops_at_malformed rf mf scale pre l post s0 Hl)
    as [Ho Hm].
  split; [exact Ho|]. split; [exact Hm|].
  intros s'. rewrite (process_line_malformed _ _ _ _ _ Hl).
  split; [reflexivity | apply moves_aborted].
Qed.

Lemma C5_witness :
  readlines broken_program = ([nl "G0 X1"] ++ nl "G1 Xabc" :: ["G1 X2"])%list /\
  malformed_motion_line None None (nl "G1 Xabc") = true /\
  outcome_of (print_from_gcode (host_with_file "a.gcode" broken_program)
                "a.gcode" None None 1%float fresh) = Raise ValueError /\
  moves_of_run broken_program None None 1%float =
  [Move Rapid (Some 1%float) None None None].
Proof.
  destruct (C5_malformed_field_aborts_run
              (host_with_file "a.gcode" broken_program) "a.gcode"
              None None 1%float fresh broken_program
              [nl "G0 X1"] (nl "G1 Xabc") ["G1 X2"])
    as (Ho & Hm & _); try (vm_compute; reflexivity).
  split; [reflexivity|]. split; [vm_compute; reflexivity|].
  split; [exact Ho|].
  unfold moves_of_run. rewrite Hm. vm_compute. reflexivity.
Defined.

(** X1: the moves of a run follow the file.  For a file of ASCII text
    that was read, the calls of [rapid] and [move] are, in the order of
    the file, one for each dispatched line (first token exactly [G0] or
    [G1]) of an initial part of the file, and of the whole file when the
    run returns: no move is reordered, repeated or made up, and none is
    sent for a line after the one the run stopped at. *)
Theorem X1_moves_follow_the_file :
  forall h f_path rf mf scale s content,
    files h f_path = Some content ->
    is_ascii content = true ->
    exists pre rest,
      readlines content = (pre ++ rest)%list /\
      moves (emitted (print_from_gcode h f_path rf mf scale s)) =
      flat_map (line_moves rf mf scale) pre /\
      (outcome_of (print_from_gcode h f_path rf mf scale s) = Return tt ->
       rest = []).
Proof.
  intros h f_path rf mf scale s content Hf _.
  destruct (print_from_gcode_cases h f_path rf mf scale s content Hf)
    as [_ Ho].
  rewrite Ho. rewrite (print_from_gcode_run _ _ _ _ _ _ _ Hf).
  unfold after; cbn [emitted app].
  unfold moves at 1. cbn [filter read_contents]. fold moves.
  destruct (existsb (malformed_line rf mf) (readlines content)) eqn:E.
  - destruct (first_split _ _ E) as (pre & l & post & El & Hpre & Hl).
    exists pre, (l :: post). split; [exact El|]. split; [|discriminate].
    rewrite El, (for_each_abort _ _ _ _ _ _ _ Hpre Hl). cbn [emitted].
    now rewrite moves_app, moves_aborted, app_nil_r, moves_of_lines.
  - exists (readlines content), []. split; [now rewrite app_nil_r|].
    split; [|reflexivity].
    rewrite (for_each_ok _ _ _ _ _ (existsb_false_Forall _ _ E)).
    apply moves_of_lines.
Qed.

Lemma X1_witness :
  is_ascii mixed_program = true /\
  moves_of_run mixed_program None None 1%float =
  [Move Rapid (Some 1%float) (Some 2%float) None None;
   Move Linear (Some 3%float) None None (Some (PyFloat 600%float));
   Move Linear None None (Some 0.25%float) None].
Proof.
  split; [vm_compute; reflexivity|].
  destruct (X1_moves_follow_the_file
              (host_with_file "a.gcode" mixed_program) "a.gcode"
              None None 1%float fresh mixed_program eq_refl)
    as (pre & rest & E & M & R); [vm_compute; reflexivity|].
  assert (Hr : rest = []) by (apply R; vm_compute; reflexivity).
  subst rest. rewrite app_nil_r in E. subst pre.
  unfold moves_of_run. rewrite M. vm_compute. reflexivity.
Defined.

(** X2: the subscripts of the translator are always in range, so reading
    a line fails only in [float].  [line.split(";")[0]] and [splits[0]]
    exist for every line; under the [startswith] guard
    [coord.split(letter)[1]] exists; and the only exception the loop over
    the fields of a line can raise is the [ValueError] of [float]. *)
Theorem X2_subscripts_are_in_range :
  (forall line, exists code kind,
      getitem (split ";" line) 0 = Return code /\
      getitem (split " " code) 0 = Return kind) /\
  (forall letter tok,
      startswith tok (letter_str letter) = true ->
      exists text, getitem (split letter tok) 1 = Return text) /\
  (forall k rf mf scale toks e,
      fold_fields k rf mf scale toks = Raise e -> e = ValueError).
Proof.
  repeat split.
  - intros line.
    destruct (split_cons ";" line) as (code & rest & E).
    destruct (split_cons " " code) as (kind & fs & E').
    exists code, kind. now rewrite E, E'.
  - intros letter tok S.
    destruct (split_at_first_letter letter tok S) as (t & ts & E).
    exists t. now rewrite E.
  - intros k rf mf scale toks e. rewrite fold_fields_run.
    destruct (malformed_fields k rf mf toks); [|discriminate].
    now intros [= <-].
Qed.

Lemma X2_witness :
  exists text, getitem (split "X" "X10") 1 = Return text.
Proof.
  exact (proj1 (proj2 X2_subscripts_are_in_range) "X"%char "X10" eq_refl).
Defined.

(** X8: what a result of the search says.  When the search returns a
    device, it is the device of a candidate that was probed and answered
    with text holding the signature, and every candidate before it was
    passed over, not open, or answered with text without the signature.
    When it returns [None], every candidate was one of these. *)
Theorem X8_search_result_is_sound :
  forall h s,
    (forall dev,
        outcome_of (__find_serial_port h s) = Return (Some dev) ->
        exists pre p post,
          comports h = (pre ++ p :: post)%list /\
          Forall (fun q => no_match h q = true) pre /\
          is_match h p = true /\ dev = device p) /\
    (outcome_of (__find_serial_port h s) = Return None ->
     Forall (fun q => no_match h q = true) (comports h)).
Proof.
  intros h s. pose proof (find_in_cases h (comports h) s) as C.
  rewrite find_serial_port_run. unfold after; cbn [outcome_of].
  destruct (outcome_of (find_in h (comports h) s)) as [[d|]|e]; split;
    try discriminate; auto.
  intros dev [= <-]. exact C.
Qed.

Lemma X8_witness :
  exists pre p post,
    comports host_with_printer = (pre ++ p :: post)%list /\
    Forall (fun q => no_match host_with_printer q = true) pre /\
    is_match host_with_printer p = true /\
    "/dev/ttyUSB2" = device p.
Proof.
  apply (proj1 (X8_search_result_is_sound host_with_printer fresh)).
  vm_compute. reflexivity.
Defined.

End RunSafety.
